(** * Whisper transcription service: a shallow embedding of [whisper-api/main.py]

    The service is one FastAPI module: a lazily loaded model handle
    ([get_model]), the [/transcribe] handler ([transcribe_audio]) with its
    [try]/[finally] around a temporary file, and the [/health] and [/] probes.

    The embedding follows the module top to bottom.  Python values that the
    handler only passes along are kept as a small value type; the process
    state (filesystem, the global [_model], the random name sequence of
    [tempfile]) is threaded explicitly through a state-and-exception monad in
    which, as in Python, the effects made before an exception stay made. *)

From Stdlib Require Import String Ascii List ZArith Lia Bool Arith.
From stdpp Require Import base option list gmap strings.
Import ListNotations.

Local Open Scope string_scope.

(** ** Python strings and [pathlib]

    Strings are byte strings (the UTF-8 encoding of the Python text).  The
    operations below only look at the ASCII characters [/], [.] and [A]-[Z],
    whose bytes never occur inside a multi-byte sequence. *)
Module Py.

(** [str.lower] on the ASCII range.  The code only compares the lowered
    suffix with four ASCII literals made of the letters of [.mp3], [.wav],
    [.m4a], [.webm]; no non-ASCII character lowers to one of those
    letters, so the comparison is the same as with the full Unicode
    mapping. *)
Definition lower_ascii (c : ascii) : ascii :=
  let n := nat_of_ascii c in
  if (65 <=? n)%nat && (n <=? 90)%nat then ascii_of_nat (n + 32) else c.

Fixpoint lower (s : string) : string :=
  match s with
  | EmptyString => EmptyString
  | String c s' => String (lower_ascii c) (lower s')
  end.

(** [sep.join(l)] *)
Fixpoint join (sep : string) (l : list string) : string :=
  match l with
  | [] => ""
  | [x] => x
  | x :: l' => x +:+ sep +:+ join sep l'
  end.

(** [s.split(c)] for a one-character separator: the pieces between the
    occurrences of [c], empty pieces included. *)
Fixpoint split (c : ascii) (s : string) : list string :=
  match s with
  | EmptyString => [EmptyString]
  | String a s' =>
      if Ascii.eqb a c then EmptyString :: split c s'
      else match split c s' with
           | [] => [String a EmptyString]
           | p :: ps => String a p :: ps
           end
  end.

(** [s.rfind(c)]: the index of the last occurrence of [c], [None] for
    Python's [-1]. *)
Fixpoint rfind (c : ascii) (s : string) : option nat :=
  match s with
  | EmptyString => None
  | String a s' =>
      match rfind c s' with
      | Some i => Some (S i)
      | None => if Ascii.eqb a c then Some 0%nat else None
      end
  end.

(** [s[i:]] *)
Fixpoint drop (i : nat) (s : string) : string :=
  match i, s with
  | O, _ => s
  | S i', String _ s' => drop i' s'
  | S _, EmptyString => EmptyString
  end.

(** The parts of a POSIX path after its root: the pieces between slashes
    that are neither empty nor a single dot ([PurePath._parse_path]). *)
Definition is_part (p : string) : bool :=
  negb (String.eqb p "") && negb (String.eqb p ".").

Definition path_parts (path : string) : list string :=
  List.filter is_part (split "/" path).

(** [Path(path).name]: the last part, the empty string when there is none. *)
Definition path_name (path : string) : string :=
  List.last (path_parts path) "".

(** [PurePath.suffix] (Python up to 3.13):
    [i = name.rfind('.'); name[i:] if 0 < i < len(name) - 1 else ''].
    Python 3.14 differs only on a trailing dot, where it gives ['.']. *)
Definition name_suffix (name : string) : string :=
  match rfind "." name with
  | Some i =>
      if (0 <? i)%nat && (S i <? String.length name)%nat then drop i name else ""
  | None => ""
  end.

Definition path_suffix (path : string) : string :=
  name_suffix (path_name path).

End Py.

(** ** Python values, exceptions and results *)

(** The values found in the mapping returned by the transcription call.  The
    handler passes them along without inspecting them. *)
Inductive pyval : Type :=
| PyNone
| PyStr (s : string)
| PyInt (z : Z)
| PyFloat (m e : Z)            (* the finite double m * 2^e *)
| PyObject (id : nat).         (* any other object, by identity *)

Inductive exn : Type :=
| HTTPException (status_code : Z) (detail : string)
| KeyError (key : string)
| TypeError
| AttributeError (name : string)
| OSError (filename : string)
| WhisperError (msg : string). (* anything raised inside the whisper package *)

Inductive result (A : Type) : Type :=
| Ok (a : A)
| Raise (e : exn).
Arguments Ok {A} a.
Arguments Raise {A} e.

(** What FastAPI answers: the status of an [HTTPException], 500 for any
    other exception, 200 for a returned value (for [/transcribe], a value
    that fits the declared [TranscribeResponse]). *)
Definition http_status {A} (r : result A) : Z :=
  match r with
  | Ok _ => 200
  | Raise (HTTPException c _) => c
  | Raise _ => 500
  end.

(** [UploadFile]: the client's file name and the bytes left in the stream. *)
Record UploadFile : Type := { filename : string; file_bytes : list Byte.byte }.

(** ** The whisper package

    The package is not part of the repository: what the module uses of it
    is an interface, [whisper.load_model], the handle's [transcribe] method
    and the read of its attribute [model_name].  [transcribe] reads the
    audio through the filesystem and does not write to it.  [model_name m]
    is the value of [m.model_name], [None] when the handle has no attribute
    of that name, in which case the read raises [AttributeError]; the handle
    class of the openai-whisper package, [whisper.model.Whisper], defines
    none. *)
Class Whisper (Model : Type) : Type := {
  load_model : string -> result Model;
  transcribe : Model -> string -> gmap string (list Byte.byte) -> result (gmap string pyval);
  model_name : Model -> option pyval
}.

(** ** The operating system

    What the module cannot decide by itself: the draws of [tempfile]'s
    random generator and whether the system lets a file be opened for
    writing or removed.  A refused operation raises [OSError] and leaves the
    files as they are.  Paths are compared as strings. *)
Record OS : Type := {
  choice : nat -> nat;
  open_wb_ok : string -> bool;
  remove_ok : string -> bool
}.

(** The calls that leave the process, in the order they were made. *)
Inductive event : Type :=
| EvLoadModel (name : string)
| EvWrite (path : string)
| EvTranscribe (path : string)
| EvRemove (path : string).

(** ** Process state *)
Record World (Model : Type) : Type := {
  fs : gmap string (list Byte.byte);   (* the files that exist, with their bytes *)
  _model : option Model;              (* the module global [_model] *)
  drawn : nat;                        (* random draws consumed so far *)
  trace : list event
}.
Arguments fs {Model} w.
Arguments _model {Model} w.
Arguments drawn {Model} w.
Arguments trace {Model} w.

(** The locals of one [transcribe_audio] call that outlive the [try] block. *)
Record Frame (Model : Type) : Type := {
  temp_file : option string;
  world : World Model
}.
Arguments temp_file {Model} f.
Arguments world {Model} f.

(** ** State and exceptions

    A computation maps a state to a result and the state it leaves; a raised
    exception keeps the state reached so far. *)
Definition M (S A : Type) : Type := S -> result A * S.

Definition ret {S A} (a : A) : M S A := fun s => (Ok a, s).
Definition raise {S A} (e : exn) : M S A := fun s => (Raise e, s).
Definition bind {S A B} (c : M S A) (k : A -> M S B) : M S B :=
  fun s => match c s with
           | (Ok a, s1) => k a s1
           | (Raise e, s1) => (Raise e, s1)
           end.
Definition gets {S A} (f : S -> A) : M S A := fun s => (Ok (f s), s).
Definition modify {S} (f : S -> S) : M S unit := fun s => (Ok tt, f s).

Declare Scope py_scope.
Delimit Scope py_scope with py.
Notation "x <- c ;; k" := (bind c (fun x => k))
  (at level 100, c at next level, right associativity) : py_scope.
Notation "c ;;; k" := (bind c (fun _ => k))
  (at level 100, k at level 200, right associativity) : py_scope.

(** [try: body finally: fin]: [fin] runs in the state [body] leaves, whether
    [body] returned or raised; an exception raised by [fin] is the one that
    leaves the statement, otherwise the outcome of [body] stands. *)
Definition try_finally {S A} (body : M S A) (fin : M S unit) : M S A :=
  fun s => match body s with
           | (r, s1) =>
               match fin s1 with
               | (Ok _, s2) => (r, s2)
               | (Raise e, s2) => (Raise e, s2)
               end
           end.

(** ** The module *)
Section Service.
Context {Model : Type} {lib : Whisper Model} (os : OS).

Local Open Scope py_scope.

Definition set_fs (f : gmap string (list Byte.byte)) (w : World Model) : World Model :=
  {| fs := f; _model := _model w; drawn := drawn w; trace := trace w |}.
Definition set_model (m : option Model) (w : World Model) : World Model :=
  {| fs := fs w; _model := m; drawn := drawn w; trace := trace w |}.
Definition set_drawn (n : nat) (w : World Model) : World Model :=
  {| fs := fs w; _model := _model w; drawn := n; trace := trace w |}.
Definition log (e : event) (w : World Model) : World Model :=
  {| fs := fs w; _model := _model w; drawn := drawn w; trace := trace w ++ [e] |}.
Definition set_temp_file (p : option string) (f : Frame Model) : Frame Model :=
  {| temp_file := p; world := world f |}.

(** A computation on the process state, run from inside a handler call. *)
Definition in_world {A} (c : M (World Model) A) : M (Frame Model) A :=
  fun f => match c (world f) with
           | (r, w) => (r, {| temp_file := temp_file f; world := w |})
           end.

(** A handler body run with fresh locals ([temp_file = None]). *)
Definition call {A} (c : M (Frame Model) A) : M (World Model) A :=
  fun w => match c {| temp_file := None; world := w |} with
           | (r, f) => (r, world f)
           end.

(** *** Library and system calls *)

Definition whisper_load_model (name : string) : M (World Model) Model :=
  modify (log (EvLoadModel name)) ;;;
  match load_model name with
  | Ok m => ret m
  | Raise e => raise e
  end.

Definition model_transcribe (model : Model) (audio_path : string)
  : M (World Model) (gmap string pyval) :=
  modify (log (EvTranscribe audio_path)) ;;;
  files <- gets fs ;;
  match transcribe model audio_path files with
  | Ok d => ret d
  | Raise e => raise e
  end.

Definition os_path_exists (path : string) : M (World Model) bool :=
  files <- gets fs ;; ret (bool_decide (is_Some (files !! path))).

Definition os_remove (path : string) : M (World Model) unit :=
  if remove_ok os path
  then modify (log (EvRemove path)) ;;;
       files <- gets fs ;; modify (set_fs (delete path files))
  else raise (OSError path).

(** [with open(path, "wb") as buffer: shutil.copyfileobj(src, buffer)] *)
Definition open_wb_copy (path : string) (src : list Byte.byte) : M (World Model) unit :=
  if open_wb_ok os path
  then modify (log (EvWrite path)) ;;;
       files <- gets fs ;; modify (set_fs (<[path := src]> files))
  else raise (OSError path).

(** [next(tempfile._get_candidate_names())]: eight characters drawn from
    [characters]. *)
Definition characters : string := "abcdefghijklmnopqrstuvwxyz0123456789_".

Definition pick (i : nat) : ascii :=
  List.nth (i mod String.length characters) (list_ascii_of_string characters) "a"%char.

(** The name made of draws [k], ..., [k + 7]. *)
Definition candidate (k : nat) : string :=
  string_of_list_ascii (List.map (fun i => pick (choice os (k + i))) (List.seq 0 8)).

Definition next_candidate_name : M (World Model) string :=
  k <- gets drawn ;;
  modify (set_drawn (k + 8)) ;;;
  ret (candidate k).

(** [d[key]] *)
Definition getitem {S} (d : gmap string pyval) (key : string) : M S pyval :=
  match d !! key with
  | Some v => ret v
  | None => raise (KeyError key)
  end.

(** [model.model_name] *)
Definition getattr_model_name {S} (model : Model) : M S pyval :=
  match model_name model with
  | Some v => ret v
  | None => raise (AttributeError "model_name")
  end.

(** *** [get_model] (lines 35-40) *)
Definition get_model : M (World Model) Model :=
  cur <- gets _model ;;
  match cur with
  | None =>
      m <- whisper_load_model "base" ;;
      modify (set_model (Some m)) ;;;
      ret m
  | Some m => ret m
  end.

(** *** [transcribe_audio] (lines 48-100) *)

Definition temp_dir : string := "/tmp/whisper_api".
Definition valid_formats : list string := [".mp3"; ".wav"; ".m4a"; ".webm"].

(** Truth values of the two optional parameters: an [UploadFile] object is
    true, a string is true when it is not empty, [None] is false. *)
Definition truthy_file (file : option UploadFile) : bool :=
  match file with Some _ => true | None => false end.
Definition truthy_str (s : option string) : bool :=
  match s with Some s => negb (String.eqb s "") | None => false end.

Definition valid_suffix (suffix : string) : bool :=
  existsb (String.eqb (Py.lower suffix)) valid_formats.

Definition temp_path (name suffix : string) : string :=
  temp_dir +:+ "/" +:+ name +:+ suffix.

(** Lines 66-79, the [if file:] branch; its value is [audio_path]. *)
Definition save_upload (file : UploadFile) : M (Frame Model) string :=
  let suffix := Py.path_suffix (filename file) in
  if negb (valid_suffix suffix) then
    raise (HTTPException 400
             ("Unsupported file format. Supported formats: "
                +:+ Py.join ", " valid_formats))
  else
    name <- in_world next_candidate_name ;;
    let path := temp_path name suffix in
    modify (set_temp_file (Some path)) ;;;
    in_world (open_wb_copy path (file_bytes file)) ;;;
    ret path.

(** Lines 83-85, the [else:] branch; its value is [audio_path].
    [os.path.exists(None)] raises [TypeError]. *)
Definition use_file_path (file_path : option string) : M (Frame Model) string :=
  match file_path with
  | None => raise TypeError
  | Some path =>
      found <- in_world (os_path_exists path) ;;
      if negb found then
        raise (HTTPException 404 ("File not found: " +:+ path))
      else ret path
  end.

(** Lines 64-85, [if file: ... else: ...]: an [UploadFile] is true, so the
    test is on the parameter being there. *)
Definition audio_source (file : option UploadFile) (file_path : option string)
  : M (Frame Model) string :=
  match file with
  | Some f => save_upload f
  | None => use_file_path file_path
  end.

(** Lines 88-95. *)
Definition run_model (audio_path : string) : M (Frame Model) (gmap string pyval) :=
  model <- in_world get_model ;;
  result <- in_world (model_transcribe model audio_path) ;;
  text <- getitem result "text" ;;
  language <- getitem result "language" ;;
  ret ({[ "transcript" := text;
          "language" := language;
          "duration" := default (PyInt 0) (result !! "duration") ]}
        : gmap string pyval).

Definition try_block (file : option UploadFile) (file_path : option string)
  : M (Frame Model) (gmap string pyval) :=
  audio_path <- audio_source file file_path ;;
  run_model audio_path.

(** Lines 97-100. *)
Definition finally_block : M (Frame Model) unit :=
  tf <- gets temp_file ;;
  match tf with
  | Some path =>
      found <- in_world (os_path_exists path) ;;
      if found then in_world (os_remove path) else ret tt
  | None => ret tt
  end.

Definition transcribe_audio (file : option UploadFile) (file_path : option string)
  : M (World Model) (gmap string pyval) :=
  if negb (truthy_file file) && negb (truthy_str file_path) then
    raise (HTTPException 400 "No audio file provided")
  else
    call (try_finally (try_block file file_path) finally_block).

(** *** [health_check] (lines 102-106) and [root] (lines 108-111) *)
Definition health_check : M (World Model) (gmap string pyval) :=
  model <- get_model ;;
  name <- getattr_model_name model ;;
  ret ({[ "status" := PyStr "ok"; "model" := name ]} : gmap string pyval).

Definition root : M (World Model) (gmap string pyval) :=
  ret ({[ "message" :=
            PyStr "Whisper Transcription API is running. Post to /transcribe to transcribe audio." ]}
        : gmap string pyval).

(** *** The application: requests are routed to the three handlers, one
    after the other, on the state of the process. *)
Inductive request : Type :=
| PostTranscribe (file : option UploadFile) (file_path : option string)
| GetHealth
| GetRoot.

Definition serve (req : request) : M (World Model) (gmap string pyval) :=
  match req with
  | PostTranscribe file file_path => transcribe_audio file file_path
  | GetHealth => health_check
  | GetRoot => root
  end.

(** The state of the process after a sequence of requests. *)
Fixpoint serve_all (reqs : list request) (w : World Model) : World Model :=
  match reqs with
  | [] => w
  | req :: reqs' => serve_all reqs' (snd (serve req w))
  end.

(** *** Descriptions used in the statements below *)

(** The process state in which the [if file:] branch hands over to the model call. *)
Definition saved (file : UploadFile) (w : World Model) : World Model :=
  let path := temp_path (candidate (drawn w)) (Py.path_suffix (filename file)) in
  set_fs (<[path := file_bytes file]> (fs w))
    (log (EvWrite path) (set_drawn (drawn w + 8) w)).

(** The response of lines 91-95 for a mapping [d] returned by the model:
    [d["text"]] and [d["language"]] raise [KeyError] when missing,
    [d.get("duration", 0)] does not. *)
Definition response_of (d : gmap string pyval) : result (gmap string pyval) :=
  match d !! "text", d !! "language" with
  | Some text, Some language =>
      Ok {[ "transcript" := text;
            "language" := language;
            "duration" := default (PyInt 0) (d !! "duration") ]}
  | None, _ => Raise (KeyError "text")
  | Some _, None => Raise (KeyError "language")
  end.

(** What lines 88-95 give once the handle [m] is at hand in state [w1]. *)
Definition transcribed (m : Model) (audio_path : string) (w1 : World Model)
  : result (gmap string pyval) * World Model :=
  (match transcribe m audio_path (fs w1) with
   | Ok d => response_of d
   | Raise e => Raise e
   end,
   log (EvTranscribe audio_path) w1).

(** Lines 88-95 on the process state: the handle is fetched, then used. *)
Definition model_step (audio_path : string) (w : World Model)
  : result (gmap string pyval) * World Model :=
  match get_model w with
  | (Ok m, w1) => transcribed m audio_path w1
  | (Raise e, w1) => (Raise e, w1)
  end.

(** A path directly inside the temp root: [temp_dir/base] with a
    non-empty [base] free of slashes. *)
Definition no_slash (s : string) : bool :=
  forallb (fun c => negb (Ascii.eqb c "/")) (list_ascii_of_string s).

Definition under_temp_root (path : string) : Prop :=
  exists base, path = temp_dir +:+ "/" +:+ base /\ base <> "" /\ no_slash base = true.

(** The number of model loads recorded in a trace. *)
Definition loads (t : list event) : nat :=
  List.length (List.filter (fun e => match e with EvLoadModel _ => true | _ => false end) t).

End Service.

(** ** Concrete environments

    Small instances of the two interfaces, on which the module can be run. *)
Module Demo.

Definition hello : gmap string pyval :=
  {[ "text" := PyStr "hello"; "language" := PyStr "en" ]}.

(** A package that works: a handle is the name of the variant it was loaded
    from, and every file that exists is transcribed.  As with the
    openai-whisper package, a handle has no [model_name]. *)
Definition works : Whisper string := {|
  load_model name := Ok name;
  transcribe _ path files :=
    match files !! path with
    | Some _ => Ok hello
    | None => Raise (WhisperError "cannot open audio")
    end;
  model_name _ := None
|}.

(** A package whose [transcribe] rejects every audio. *)
Definition rejects : Whisper string := {|
  load_model name := Ok name;
  transcribe _ _ _ := Raise (WhisperError "malformed audio");
  model_name _ := None
|}.

(** A package that reports a duration as well. *)
Definition timed : Whisper string := {|
  load_model name := Ok name;
  transcribe _ _ _ :=
    Ok (<[ "duration" := PyFloat 5 (-1) ]> hello);
  model_name _ := None
|}.

(** A package whose handles do carry a [model_name], their variant. *)
Definition tagged : Whisper string := {|
  load_model name := Ok name;
  transcribe _ _ _ := Ok hello;
  model_name m := Some (PyStr m)
|}.

(** A system on which every operation succeeds. *)
Definition reliable : OS := {|
  choice n := n;
  open_wb_ok _ := true;
  remove_ok _ := true
|}.

(** A system that refuses to remove files (a file still held open by
    another process, a directory turned read-only). *)
Definition sticky : OS := {|
  choice n := n;
  open_wb_ok _ := true;
  remove_ok _ := false
|}.

Definition clip : UploadFile :=
  {| filename := "clip.WAV"; file_bytes := [Byte.x52; Byte.x49; Byte.x46; Byte.x46] |}.

Definition notes : UploadFile :=
  {| filename := "notes.txt"; file_bytes := [Byte.x68; Byte.x69] |}.

(** A fresh process with one audio file on disk. *)
Definition boot : World string := {|
  fs := {[ "/data/talk.mp3" := [Byte.x49; Byte.x44; Byte.x33] ]};
  _model := None;
  drawn := 0;
  trace := []
|}.

End Demo.

(** ** Faulty environments *)
Module Faults.

(** A package whose model cannot be loaded (no network to fetch it). *)
Definition offline : Whisper string := {|
  load_model _ := Raise (WhisperError "download failed");
  transcribe _ _ _ := Ok Demo.hello;
  model_name _ := None
|}.

(** A system on which no file can be opened for writing. *)
Definition read_only : OS := {|
  choice n := n;
  open_wb_ok _ := false;
  remove_ok _ := true
|}.

(** A process with a stale file at the first candidate temp path. *)
Definition stale : World string := {|
  fs := {[ "/tmp/whisper_api/abcdefgh.WAV" := [Byte.x00] ]};
  _model := None;
  drawn := 0;
  trace := []
|}.

End Faults.

(** ** Descriptions of effects *)
Section Effects.
Context {Model : Type} {lib : Whisper Model}.

(** What one request may do to the trace and to the global: it adds events
    [new], among which the only loads are of "base"; either it makes no load
    and leaves the global alone, or the global was [None] and it makes one
    load, which gives the handle now in the global or fails and leaves
    [None]. *)
Definition request_effect (w w' : World Model) : Prop :=
  exists new,
    trace w' = (trace w ++ new)%list /\
    (forall n, In (EvLoadModel n) new -> n = "base") /\
    ((_model w' = _model w /\ loads new = 0%nat) \/
     (_model w = None /\ loads new = 1%nat /\
      exists m, load_model "base" = Ok m /\ _model w' = Some m) \/
     (_model w = None /\ loads new = 1%nat /\
      exists e, load_model "base" = Raise e /\ _model w' = None)).

End Effects.

(** [c] does not occur in [s]. *)
Definition lacks (c : ascii) (s : string) : bool :=
  forallb (fun a => negb (Ascii.eqb a c)) (list_ascii_of_string s).

(** * Properties *)

(** ** Strings and paths *)
Section PathFacts.

Lemma append_empty_r (s : string) : s +:+ "" = s.
Proof.
  induction s as [|c s IH]; [reflexivity|].
  change (String c (s +:+ "") = String c s). now f_equal.
Qed.

Lemma no_slash_app (a b : string) :
  no_slash (a +:+ b) = no_slash a && no_slash b.
Proof.
  unfold no_slash. induction a as [|c a IH]; simpl; [reflexivity|].
  rewrite IH. apply andb_assoc.
Qed.

Lemma split_pieces (c : ascii) (s p : string) :
  In p (Py.split c s) ->
  forallb (fun a => negb (Ascii.eqb a c)) (list_ascii_of_string p) = true.
Proof.
  revert p. induction s as [|a s IH]; simpl; intros p Hp.
  - destruct Hp as [<-|[]]. reflexivity.
  - destruct (Ascii.eqb a c) eqn:Hac.
    + destruct Hp as [<-|Hp]; [reflexivity | auto].
    + destruct (Py.split c s) as [|q qs] eqn:Hs.
      * destruct Hp as [<-|[]]. simpl. now rewrite Hac.
      * destruct Hp as [<-|Hp].
        -- simpl. rewrite Hac. simpl. apply IH. now left.
        -- apply IH. now right.
Qed.

Lemma last_in_or_default {A} (l : list A) (d : A) :
  List.last l d = d \/ In (List.last l d) l.
Proof.
  induction l as [|x l IH]; [now left|].
  destruct l as [|y l]; [right; now left|].
  destruct IH as [IH|IH].
  - change (List.last (x :: y :: l) d) with (List.last (y :: l) d).
    rewrite IH. now left.
  - right. right. exact IH.
Qed.

Lemma path_name_no_slash (path : string) : no_slash (Py.path_name path) = true.
Proof.
  unfold Py.path_name, Py.path_parts.
  destruct (last_in_or_default (List.filter Py.is_part (Py.split "/" path)) "")
    as [-> | Hin]; [reflexivity|].
  apply filter_In in Hin as [Hin _].
  exact (split_pieces _ _ _ Hin).
Qed.

Lemma drop_no_slash (i : nat) (s : string) :
  no_slash s = true -> no_slash (Py.drop i s) = true.
Proof.
  revert s. induction i as [|i IH]; intros s Hs; [destruct s; exact Hs|].
  destruct s as [|c s]; [reflexivity|].
  simpl. apply IH. unfold no_slash in *. simpl in Hs.
  now apply andb_prop in Hs as [_ Hs].
Qed.

Lemma path_suffix_no_slash (path : string) : no_slash (Py.path_suffix path) = true.
Proof.
  unfold Py.path_suffix, Py.name_suffix.
  destruct (Py.rfind "." (Py.path_name path)) as [i|]; [|reflexivity].
  destruct ((0 <? i)%nat && (S i <? String.length (Py.path_name path))%nat);
    [|reflexivity].
  apply drop_no_slash, path_name_no_slash.
Qed.

Lemma pick_not_slash (i : nat) : Ascii.eqb (pick i) "/" = false.
Proof.
  unfold pick.
  assert (Hall : forallb (fun c => negb (Ascii.eqb c "/"))
                   (list_ascii_of_string characters) = true) by reflexivity.
  rewrite forallb_forall in Hall.
  apply negb_true_iff, Hall, nth_In.
  apply Nat.mod_upper_bound. discriminate.
Qed.

Lemma candidate_no_slash (os : OS) (k : nat) : no_slash (candidate os k) = true.
Proof.
  unfold candidate, no_slash. rewrite list_ascii_of_string_of_list_ascii.
  apply forallb_forall. intros c Hc.
  apply in_map_iff in Hc as (i & <- & _).
  now rewrite pick_not_slash.
Qed.

Lemma candidate_length (os : OS) (k : nat) : String.length (candidate os k) = 8%nat.
Proof. reflexivity. Qed.

(** The temp file of an upload lies directly inside the temp root. *)
Lemma temp_path_under_root (os : OS) (k : nat) (fname : string) :
  under_temp_root (temp_path (candidate os k) (Py.path_suffix fname)).
Proof.
  exists (candidate os k +:+ Py.path_suffix fname). split; [reflexivity|]. split.
  - intros H. apply (f_equal String.length) in H.
    unfold candidate in H. simpl in H. discriminate H.
  - now rewrite no_slash_app, candidate_no_slash, path_suffix_no_slash.
Qed.

(** The code's membership test is membership in the list. *)
Lemma valid_suffix_spec (suffix : string) :
  valid_suffix suffix = true <-> In (Py.lower suffix) valid_formats.
Proof.
  unfold valid_suffix. rewrite existsb_exists. split.
  - intros (x & Hx & Heq). apply String.eqb_eq in Heq. now subst.
  - intros H. exists (Py.lower suffix). split; [exact H | apply String.eqb_refl].
Qed.

End PathFacts.

(** ** The handlers, step by step *)
Section ServiceFacts.
Context {Model : Type} {lib : Whisper Model} (os : OS).

(** *** [get_model] *)

Lemma get_model_loaded (w : World Model) (m : Model) :
  _model w = Some m -> get_model w = (Ok m, w).
Proof. intros H. unfold get_model, bind, gets. now rewrite H. Qed.

Lemma get_model_first (w : World Model) (m : Model) :
  _model w = None -> load_model "base" = Ok m ->
  get_model w = (Ok m, set_model (Some m) (log (EvLoadModel "base") w)).
Proof.
  intros Hw Hl.
  unfold get_model, whisper_load_model, bind, gets, modify, ret.
  now rewrite Hw, Hl.
Qed.

Lemma get_model_failed (w : World Model) (e : exn) :
  _model w = None -> load_model "base" = Raise e ->
  get_model w = (Raise e, log (EvLoadModel "base") w).
Proof.
  intros Hw Hl.
  unfold get_model, whisper_load_model, bind, gets, modify, raise.
  now rewrite Hw, Hl.
Qed.

(** [get_model] touches neither the files nor the name sequence; when it
    returns, the global holds the handle it returned. *)
Lemma get_model_frame (w : World Model) :
  fs (snd (get_model w)) = fs w /\ drawn (snd (get_model w)) = drawn w.
Proof.
  unfold get_model, whisper_load_model, bind, gets, modify, ret, raise.
  destruct (_model w); [now split|].
  destruct (load_model "base"); now split.
Qed.

Lemma get_model_returns (w w1 : World Model) (m : Model) :
  get_model w = (Ok m, w1) -> _model w1 = Some m.
Proof.
  unfold get_model, whisper_load_model, bind, gets, modify, ret, raise.
  destruct (_model w) eqn:Hw.
  - intros [= <- <-]. exact Hw.
  - destruct (load_model "base"); [intros [= <- <-]; reflexivity | discriminate].
Qed.

(** [health_check] once the handle is at hand: the answer hangs on the read
    of [model_name]. *)
Lemma health_check_from (w w1 : World Model) (m : Model) :
  get_model w = (Ok m, w1) ->
  health_check w =
    (match model_name m with
     | Some name => Ok {[ "status" := PyStr "ok"; "model" := name ]}
     | None => Raise (AttributeError "model_name")
     end, w1).
Proof.
  intros Hm. unfold health_check, bind, getattr_model_name. rewrite Hm.
  now destruct (model_name m).
Qed.

(** *** The two branches that choose the audio *)

Lemma save_upload_rejected (file : UploadFile) (f : Frame Model) :
  valid_suffix (Py.path_suffix (filename file)) = false ->
  save_upload os file f =
    (Raise (HTTPException 400
              "Unsupported file format. Supported formats: .mp3, .wav, .m4a, .webm"), f).
Proof. intros H. unfold save_upload. now rewrite H. Qed.

Lemma save_upload_saved (file : UploadFile) (t : option string) (w : World Model) :
  let path := temp_path (candidate os (drawn w)) (Py.path_suffix (filename file)) in
  valid_suffix (Py.path_suffix (filename file)) = true ->
  open_wb_ok os path = true ->
  save_upload os file {| temp_file := t; world := w |} =
    (Ok path, {| temp_file := Some path; world := saved os file w |}).
Proof.
  intros path Hv Ho. unfold save_upload. rewrite Hv. simpl.
  unfold bind, in_world, next_candidate_name, open_wb_copy, bind, gets, modify, ret.
  simpl. fold path. now rewrite Ho.
Qed.

Lemma save_upload_open_failed (file : UploadFile) (t : option string) (w : World Model) :
  let path := temp_path (candidate os (drawn w)) (Py.path_suffix (filename file)) in
  valid_suffix (Py.path_suffix (filename file)) = true ->
  open_wb_ok os path = false ->
  save_upload os file {| temp_file := t; world := w |} =
    (Raise (OSError path),
     {| temp_file := Some path; world := set_drawn (drawn w + 8) w |}).
Proof.
  intros path Hv Ho. unfold save_upload. rewrite Hv. simpl.
  unfold bind, in_world, next_candidate_name, open_wb_copy, bind, gets, modify,
    ret, raise.
  simpl. fold path. now rewrite Ho.
Qed.

Lemma use_file_path_found (path : string) (f : Frame Model) :
  is_Some (fs (world f) !! path) ->
  use_file_path (Some path) f = (Ok path, f).
Proof.
  intros H. unfold use_file_path, bind, in_world, os_path_exists, bind, gets, ret.
  rewrite bool_decide_eq_true_2 by exact H. now destruct f.
Qed.

Lemma use_file_path_missing (path : string) (f : Frame Model) :
  fs (world f) !! path = None ->
  use_file_path (Some path) f =
    (Raise (HTTPException 404 ("File not found: " +:+ path)), f).
Proof.
  intros H. unfold use_file_path, bind, in_world, os_path_exists, bind, gets, ret.
  rewrite bool_decide_eq_false_2; [now destruct f|].
  rewrite H. intros [x Hx]. discriminate Hx.
Qed.

(** *** The model call *)

Lemma run_model_eq (audio_path : string) (t : option string) (w : World Model) :
  run_model audio_path {| temp_file := t; world := w |} =
    (fst (model_step audio_path w),
     {| temp_file := t; world := snd (model_step audio_path w) |}).
Proof.
  unfold run_model, model_step, transcribed, response_of, bind, in_world,
    model_transcribe, getitem, bind, gets, modify, ret, raise.
  simpl. destruct (get_model w) as [[m|e] w1]; [|reflexivity].
  simpl. destruct (transcribe m audio_path (fs w1)) as [d|e]; [|reflexivity].
  destruct (d !! "text"); [|reflexivity].
  destruct (d !! "language"); reflexivity.
Qed.

(** The model call keeps the files and the name sequence. *)
Lemma model_step_frame (audio_path : string) (w : World Model) :
  fs (snd (model_step audio_path w)) = fs w /\
  drawn (snd (model_step audio_path w)) = drawn w.
Proof.
  unfold model_step. pose proof (get_model_frame w) as [Hf Hd].
  destruct (get_model w) as [[m|e] w1]; simpl in *; auto.
Qed.

(** *** The [finally] block *)

Lemma finally_no_temp (w : World Model) :
  finally_block os {| temp_file := None; world := w |} =
    (Ok tt, {| temp_file := None; world := w |}).
Proof. reflexivity. Qed.

Lemma finally_absent (path : string) (w : World Model) :
  fs w !! path = None ->
  finally_block os {| temp_file := Some path; world := w |} =
    (Ok tt, {| temp_file := Some path; world := w |}).
Proof.
  intros H. unfold finally_block, bind, gets, in_world, os_path_exists, bind, gets, ret.
  simpl. rewrite bool_decide_eq_false_2; [reflexivity|].
  rewrite H. intros [x Hx]. discriminate Hx.
Qed.

Lemma finally_removes (path : string) (w : World Model) :
  is_Some (fs w !! path) -> remove_ok os path = true ->
  finally_block os {| temp_file := Some path; world := w |} =
    (Ok tt, {| temp_file := Some path;
               world := set_fs (delete path (fs w)) (log (EvRemove path) w) |}).
Proof.
  intros H Hr.
  unfold finally_block, bind, gets, in_world, os_path_exists, os_remove, bind,
    gets, modify, ret.
  simpl. rewrite bool_decide_eq_true_2 by exact H. now rewrite Hr.
Qed.

Lemma finally_remove_fails (path : string) (w : World Model) :
  is_Some (fs w !! path) -> remove_ok os path = false ->
  finally_block os {| temp_file := Some path; world := w |} =
    (Raise (OSError path), {| temp_file := Some path; world := w |}).
Proof.
  intros H Hr.
  unfold finally_block, bind, gets, in_world, os_path_exists, os_remove, bind,
    gets, modify, ret, raise.
  simpl. rewrite bool_decide_eq_true_2 by exact H. now rewrite Hr.
Qed.

(** *** The handler, branch by branch *)

(** An accepted upload: the temp file is written, the model step runs, the
    [finally] block removes the file or fails to. *)
Lemma transcribe_audio_upload (file : UploadFile) (file_path : option string)
      (w : World Model) :
  let path := temp_path (candidate os (drawn w)) (Py.path_suffix (filename file)) in
  let out := model_step path (saved os file w) in
  valid_suffix (Py.path_suffix (filename file)) = true ->
  open_wb_ok os path = true ->
  transcribe_audio os (Some file) file_path w =
    if remove_ok os path
    then (fst out, set_fs (delete path (fs w)) (log (EvRemove path) (snd out)))
    else (Raise (OSError path), snd out).
Proof.
  intros path out Hv Ho.
  unfold transcribe_audio, call, try_finally, try_block, bind, audio_source. simpl.
  rewrite (save_upload_saved file None w Hv Ho). fold path.
  rewrite run_model_eq. fold out.
  assert (Hfs : fs (snd out) = <[path := file_bytes file]> (fs w)).
  { unfold out. now rewrite (proj1 (model_step_frame _ _)). }
  assert (Hex : is_Some (fs (snd out) !! path)).
  { rewrite Hfs, lookup_insert_eq. eauto. }
  destruct (remove_ok os path) eqn:Hr.
  - rewrite (finally_removes _ _ Hex Hr). simpl.
    now rewrite Hfs, delete_insert_eq.
  - now rewrite (finally_remove_fails _ _ Hex Hr).
Qed.

(** An existing local path: only the model step runs. *)
Lemma transcribe_audio_local (path : string) (w : World Model) :
  path <> "" -> is_Some (fs w !! path) ->
  transcribe_audio os None (Some path) w = model_step path w.
Proof.
  intros Hne Hex.
  unfold transcribe_audio, truthy_file, truthy_str.
  apply String.eqb_neq in Hne. rewrite Hne.
  cbv [negb andb call try_finally try_block bind audio_source].
  rewrite use_file_path_found by exact Hex.
  rewrite run_model_eq, finally_no_temp. simpl.
  now destruct (model_step path w).
Qed.

(** What a successful [if file:] branch tells about the request. *)
Lemma save_upload_inv (file : UploadFile) (w : World Model) (p : string)
      (f1 : Frame Model) :
  save_upload os file {| temp_file := None; world := w |} = (Ok p, f1) ->
  let path := temp_path (candidate os (drawn w)) (Py.path_suffix (filename file)) in
  valid_suffix (Py.path_suffix (filename file)) = true /\
  open_wb_ok os path = true /\
  p = path /\ f1 = {| temp_file := Some path; world := saved os file w |}.
Proof.
  intros Hrun path.
  destruct (valid_suffix (Py.path_suffix (filename file))) eqn:Hv.
  - destruct (open_wb_ok os path) eqn:Ho.
    + rewrite (save_upload_saved file None w Hv Ho) in Hrun.
      now injection Hrun as <- <-.
    + rewrite (save_upload_open_failed file None w Hv Ho) in Hrun. discriminate Hrun.
  - rewrite (save_upload_rejected file _ Hv) in Hrun. discriminate Hrun.
Qed.

Lemma use_file_path_inv (file_path : option string) (f : Frame Model) (p : string)
      (f1 : Frame Model) :
  use_file_path file_path f = (Ok p, f1) ->
  file_path = Some p /\ is_Some (fs (world f) !! p) /\ f1 = f.
Proof.
  destruct file_path as [path|]; [|discriminate].
  destruct (fs (world f) !! path) as [b|] eqn:Hl.
  - rewrite use_file_path_found by (rewrite Hl; eauto).
    intros [= <- <-]. rewrite Hl. eauto.
  - rewrite use_file_path_missing by exact Hl. discriminate.
Qed.

(** The handler once the audio has been chosen: the model step, then the
    removal of the temp file when there is one. *)
Lemma transcribe_audio_sourced (file : option UploadFile) (file_path : option string)
      (w : World Model) (path : string) (f1 : Frame Model) :
  truthy_file file || truthy_str file_path = true ->
  audio_source os file file_path {| temp_file := None; world := w |} = (Ok path, f1) ->
  (forall t, temp_file f1 = Some t -> remove_ok os t = true) ->
  fst (transcribe_audio os file file_path w) = fst (model_step path (world f1)).
Proof.
  intros Htruthy Hsrc Hrm. destruct file as [file|]; simpl in Hsrc.
  - apply save_upload_inv in Hsrc as (Hv & Ho & -> & ->).
    rewrite (transcribe_audio_upload file file_path w Hv Ho).
    now rewrite (Hrm _ eq_refl).
  - apply use_file_path_inv in Hsrc as (-> & Hex & ->).
    simpl in Htruthy. apply negb_true_iff, String.eqb_neq in Htruthy.
    now rewrite (transcribe_audio_local path w Htruthy Hex).
Qed.

(** *** Once loaded, the handle stays *)

Lemma loads_log (t : list event) (e : event) :
  loads (t ++ [e]) =
    (loads t + match e with EvLoadModel _ => 1 | _ => 0 end)%nat.
Proof.
  unfold loads. rewrite List.filter_app, List.length_app.
  destruct e; simpl; lia.
Qed.

Lemma model_step_keeps_model (path : string) (w : World Model) (m : Model) :
  _model w = Some m ->
  _model (snd (model_step path w)) = Some m /\
  loads (trace (snd (model_step path w))) = loads (trace w).
Proof.
  intros Hm. unfold model_step. rewrite (get_model_loaded w m Hm).
  simpl. split; [exact Hm | rewrite loads_log; lia].
Qed.

Lemma transcribe_audio_keeps_model (file : option UploadFile)
      (file_path : option string) (w : World Model) (m : Model) :
  _model w = Some m ->
  _model (snd (transcribe_audio os file file_path w)) = Some m /\
  loads (trace (snd (transcribe_audio os file file_path w))) = loads (trace w).
Proof.
  intros Hm. unfold transcribe_audio.
  destruct (negb (truthy_file file) && negb (truthy_str file_path)); [now split|].
  unfold call, try_finally, try_block, bind.
  destruct file as [file|]; simpl audio_source.
  - destruct (valid_suffix (Py.path_suffix (filename file))) eqn:Hv.
    + set (path := temp_path (candidate os (drawn w)) (Py.path_suffix (filename file))).
      destruct (open_wb_ok os path) eqn:Ho.
      * rewrite (save_upload_saved file None w Hv Ho). fold path.
        rewrite run_model_eq.
        destruct (model_step_keeps_model path (saved os file w) m Hm) as [Hk Hl].
        pose proof (proj1 (model_step_frame path (saved os file w))) as Hfs.
        assert (Hex : is_Some (fs (snd (model_step path (saved os file w))) !! path)).
        { rewrite Hfs. unfold saved. fold path. simpl. rewrite lookup_insert_eq. eauto. }
        destruct (remove_ok os path) eqn:Hr.
        -- rewrite (finally_removes _ _ Hex Hr). simpl.
           split; [exact Hk|]. rewrite loads_log, Hl. unfold saved. simpl.
           rewrite loads_log. simpl. lia.
        -- rewrite (finally_remove_fails _ _ Hex Hr). simpl.
           split; [exact Hk|]. rewrite Hl. unfold saved. simpl.
           rewrite loads_log. simpl. lia.
      * rewrite (save_upload_open_failed file None w Hv Ho). fold path.
        destruct (fs w !! path) as [b|] eqn:Hl.
        -- destruct (remove_ok os path) eqn:Hr.
           ++ rewrite finally_removes; simpl; [|rewrite Hl; eauto|exact Hr].
              split; [exact Hm | rewrite loads_log; simpl; lia].
           ++ rewrite finally_remove_fails; simpl; [|rewrite Hl; eauto|exact Hr].
              now split.
        -- rewrite finally_absent by exact Hl. now split.
    + rewrite (save_upload_rejected file _ Hv), finally_no_temp. now split.
  - destruct file_path as [path|]; [|now split].
    destruct (fs w !! path) as [b|] eqn:Hl.
    + rewrite use_file_path_found by (simpl; rewrite Hl; eauto).
      rewrite run_model_eq, finally_no_temp. simpl.
      apply model_step_keeps_model, Hm.
    + rewrite use_file_path_missing by exact Hl.
      rewrite finally_no_temp. now split.
Qed.

Lemma serve_keeps_model (req : request) (w : World Model) (m : Model) :
  _model w = Some m ->
  _model (snd (serve os req w)) = Some m /\
  loads (trace (snd (serve os req w))) = loads (trace w).
Proof.
  intros Hm. destruct req as [file file_path| |]; simpl.
  - apply transcribe_audio_keeps_model, Hm.
  - unfold health_check, bind. rewrite (get_model_loaded w m Hm).
    unfold getattr_model_name. destruct (model_name m); now split.
  - now split.
Qed.

Lemma serve_all_keeps_model (reqs : list request) (w : World Model) (m : Model) :
  _model w = Some m ->
  _model (serve_all os reqs w) = Some m /\
  loads (trace (serve_all os reqs w)) = loads (trace w).
Proof.
  revert w. induction reqs as [|req reqs IH]; intros w Hm; [now split|].
  simpl. destruct (serve_keeps_model req w m Hm) as [Hk Hl].
  destruct (IH _ Hk) as [Hk' Hl']. split; [exact Hk' | congruence].
Qed.

End ServiceFacts.

(** ** The service contract *)

(** C1.  A request that uploads a file with an allowed extension: the temp
    file lies directly inside the temp root; the upload branch leaves it on
    disk, holding the payload, before the model is called; and once the
    handler is over the file does not exist, whatever the outcome [r] of the
    call (a response, a failed load, a failed transcription).  The system is
    assumed to let the file be opened and removed. *)
Theorem upload_temp_file_lifecycle {Model : Type} {lib : Whisper Model} (os : OS)
        (file : UploadFile) (file_path : option string) (w : World Model) :
  let suffix := Py.path_suffix (filename file) in
  let path := temp_path (candidate os (drawn w)) suffix in
  In (Py.lower suffix) valid_formats ->
  open_wb_ok os path = true ->
  remove_ok os path = true ->
  under_temp_root path /\
  save_upload os file {| temp_file := None; world := w |} =
    (Ok path, {| temp_file := Some path; world := saved os file w |}) /\
  fs (saved os file w) !! path = Some (file_bytes file) /\
  forall r w', transcribe_audio os (Some file) file_path w = (r, w') ->
    r = fst (model_step path (saved os file w)) /\
    fs w' !! path = None /\
    fs w' = delete path (fs w) /\
    trace w' = (trace (snd (model_step path (saved os file w))) ++ [EvRemove path])%list.
Proof.
  intros suffix path Hin Ho Hr.
  apply valid_suffix_spec in Hin.
  split; [apply temp_path_under_root|].
  split; [exact (save_upload_saved os file None w Hin Ho)|].
  split; [apply lookup_insert_eq|].
  intros r w' Hrun.
  rewrite (transcribe_audio_upload os file file_path w Hin Ho) in Hrun.
  fold suffix path in Hrun. rewrite Hr in Hrun.
  injection Hrun as <- <-. simpl.
  repeat split. apply lookup_delete_eq.
Qed.

Lemma upload_temp_file_lifecycle_witness :
  fs (snd (transcribe_audio (lib := Demo.works) Demo.reliable (Some Demo.clip) None Demo.boot))
    !! "/tmp/whisper_api/abcdefgh.WAV" = None.
Proof.
  destruct (transcribe_audio (lib := Demo.works) Demo.reliable (Some Demo.clip) None Demo.boot)
    as [r w'] eqn:Hrun.
  refine (proj1 (proj2 (proj2 (proj2 (proj2
    (upload_temp_file_lifecycle (lib := Demo.works) Demo.reliable Demo.clip None Demo.boot _ _ _))) r w' Hrun))).
  - vm_compute. right. left. reflexivity.
  - reflexivity.
  - reflexivity.
Defined.

(** C2.  An upload whose extension, lowered, is not one of the four allowed
    ones is answered 400 with a message that lists exactly the four formats;
    the process state is left as it was: nothing is written, no name is
    drawn, no call is made. *)
Theorem unsupported_format_rejected {Model : Type} {lib : Whisper Model} (os : OS)
        (file : UploadFile) (file_path : option string) (w : World Model) :
  ~ In (Py.lower (Py.path_suffix (filename file))) [".mp3"; ".wav"; ".m4a"; ".webm"] ->
  transcribe_audio os (Some file) file_path w =
    (Raise (HTTPException 400
              "Unsupported file format. Supported formats: .mp3, .wav, .m4a, .webm"), w)
  /\ http_status (fst (transcribe_audio os (Some file) file_path w)) = 400%Z.
Proof.
  intros Hnot.
  assert (Hv : valid_suffix (Py.path_suffix (filename file)) = false).
  { destruct (valid_suffix _) eqn:E; [|reflexivity].
    apply valid_suffix_spec in E. contradiction. }
  assert (Heq : transcribe_audio os (Some file) file_path w =
    (Raise (HTTPException 400
              "Unsupported file format. Supported formats: .mp3, .wav, .m4a, .webm"), w)).
  { unfold transcribe_audio, truthy_file.
    cbv [negb andb call try_finally try_block bind audio_source].
    rewrite (save_upload_rejected os file _ Hv).
    now rewrite finally_no_temp. }
  split; [exact Heq | now rewrite Heq].
Qed.

Lemma unsupported_format_rejected_witness :
  transcribe_audio (lib := Demo.works) Demo.reliable (Some Demo.notes) None Demo.boot =
    (Raise (HTTPException 400
              "Unsupported file format. Supported formats: .mp3, .wav, .m4a, .webm"),
     Demo.boot).
Proof.
  refine (proj1 (unsupported_format_rejected (lib := Demo.works) Demo.reliable Demo.notes None Demo.boot _)).
  vm_compute. intros [H|[H|[H|[H|[]]]]]; discriminate H.
Defined.

(** C3.  A request with neither an upload nor a path is answered 400 "No
    audio file provided", in the state it arrived in: the check comes before
    the [try] block, so no temp file is created.  An empty path string is
    false in Python and is answered the same way. *)
Theorem no_audio_rejected {Model : Type} {lib : Whisper Model} (os : OS) (w : World Model) :
  transcribe_audio os None None w =
    (Raise (HTTPException 400 "No audio file provided"), w)
  /\ http_status (fst (transcribe_audio os None None w)) = 400%Z
  /\ transcribe_audio os None (Some "") w = transcribe_audio os None None w.
Proof. repeat split. Qed.

(** C4.  A request with only a [file_path], naming (as a non-empty string) a
    path that does not exist, is answered 404 with the message
    "File not found: <path>", which contains the path; the state is left as
    it was, so no temp file is created. *)
Theorem missing_path_not_found {Model : Type} {lib : Whisper Model} (os : OS)
        (path : string) (w : World Model) :
  path <> "" ->
  fs w !! path = None ->
  transcribe_audio os None (Some path) w =
    (Raise (HTTPException 404 ("File not found: " +:+ path)), w)
  /\ http_status (fst (transcribe_audio os None (Some path) w)) = 404%Z
  /\ exists before after, "File not found: " +:+ path = before +:+ path +:+ after.
Proof.
  intros Hne Hmiss.
  assert (Heq : transcribe_audio os None (Some path) w =
    (Raise (HTTPException 404 ("File not found: " +:+ path)), w)).
  { unfold transcribe_audio, truthy_file, truthy_str.
    apply String.eqb_neq in Hne. rewrite Hne.
    cbv [negb andb call try_finally try_block bind audio_source].
    rewrite use_file_path_missing by exact Hmiss.
    now rewrite finally_no_temp. }
  split; [exact Heq|]. split; [now rewrite Heq|].
  exists "File not found: ", "". now rewrite append_empty_r.
Qed.

Lemma missing_path_not_found_witness :
  transcribe_audio (lib := Demo.works) Demo.reliable None (Some "/data/lost.wav") Demo.boot =
    (Raise (HTTPException 404 "File not found: /data/lost.wav"), Demo.boot).
Proof.
  refine (proj1 (missing_path_not_found (lib := Demo.works) Demo.reliable "/data/lost.wav" Demo.boot _ _)).
  - discriminate.
  - vm_compute. reflexivity.
Defined.

(** C5 does not hold as stated: a request in which both the upload and the
    path are populated is processed and answered. *)
Lemma both_forms_accepted :
  ~ (forall file file_path r,
        fst (transcribe_audio (lib := Demo.works) Demo.reliable file file_path Demo.boot) = Ok r ->
        ~ (truthy_file file = true /\ truthy_str file_path = true)).
Proof.
  intros H.
  refine (H (Some Demo.clip) (Some "/data/talk.mp3")
            {[ "transcript" := PyStr "hello"; "language" := PyStr "en";
               "duration" := PyInt 0 ]} _ _).
  - vm_compute. reflexivity.
  - split; reflexivity.
Qed.

(** C6 does not hold as stated: on a system that refuses the removal, a
    failed transcription is answered with the error of [os.remove], not with
    the transcription error, and the temp file stays. *)
Lemma cleanup_failure_masks_error :
  let path := "/tmp/whisper_api/abcdefgh.WAV" in
  let out := transcribe_audio (lib := Demo.rejects) Demo.sticky (Some Demo.clip) None Demo.boot in
  fst (model_step (lib := Demo.rejects) path (saved Demo.sticky Demo.clip Demo.boot))
    = Raise (WhisperError "malformed audio") /\
  fst out = Raise (OSError path) /\
  fst out <> Raise (WhisperError "malformed audio") /\
  fs (snd out) !! path = Some (file_bytes Demo.clip).
Proof. vm_compute. repeat split. discriminate. Qed.

(** C6, as the code has it.  When the transcription call fails with [e]
    after the temp file was written, then, if the system removes the file,
    the file is gone and [e] is what the caller gets; if the removal itself
    fails, its [OSError] replaces [e] and the file stays: the [finally]
    block has no handler around [os.remove]. *)
Theorem transcription_error_and_cleanup {Model : Type} {lib : Whisper Model} (os : OS)
        (file : UploadFile) (file_path : option string) (w w1 : World Model)
        (m : Model) (e : exn) :
  let suffix := Py.path_suffix (filename file) in
  let path := temp_path (candidate os (drawn w)) suffix in
  let out := transcribe_audio os (Some file) file_path w in
  In (Py.lower suffix) valid_formats ->
  open_wb_ok os path = true ->
  get_model (saved os file w) = (Ok m, w1) ->
  transcribe m path (fs w1) = Raise e ->
  if remove_ok os path
  then fst out = Raise e /\ fs (snd out) !! path = None
  else fst out = Raise (OSError path) /\ fs (snd out) !! path = Some (file_bytes file).
Proof.
  intros suffix path out Hin Ho Hm He.
  apply valid_suffix_spec in Hin.
  unfold out. rewrite (transcribe_audio_upload os file file_path w Hin Ho).
  fold suffix path.
  assert (Hstep : model_step path (saved os file w) = (Raise e, log (EvTranscribe path) w1)).
  { unfold model_step. rewrite Hm. unfold transcribed. now rewrite He. }
  rewrite Hstep.
  destruct (remove_ok os path); simpl.
  - split; [reflexivity | apply lookup_delete_eq].
  - split; [reflexivity|].
    pose proof (get_model_frame (saved os file w)) as [Hf _].
    rewrite Hm in Hf. simpl in Hf. rewrite Hf. apply lookup_insert_eq.
Qed.

Lemma transcription_error_and_cleanup_witness :
  let out := transcribe_audio (lib := Demo.rejects) Demo.reliable (Some Demo.clip) None Demo.boot in
  fst out = Raise (WhisperError "malformed audio") /\
  fs (snd out) !! "/tmp/whisper_api/abcdefgh.WAV" = None.
Proof.
  refine (transcription_error_and_cleanup (lib := Demo.rejects) Demo.reliable Demo.clip None
            Demo.boot _ "base" (WhisperError "malformed audio") _ _ _ _).
  - vm_compute. right. left. reflexivity.
  - reflexivity.
  - reflexivity.
  - reflexivity.
Defined.

(** C7.  When the audio has been chosen, the handle obtained and the
    transcription call has returned the mapping [d] (and the temp file, if
    any, can be removed), the handler returns the three fields read from
    [d]: [text] and [language] by subscript, so that a missing key raises
    [KeyError], and [duration] with the default 0. *)
Theorem response_fields {Model : Type} {lib : Whisper Model} (os : OS)
        (file : option UploadFile) (file_path : option string) (w w2 : World Model)
        (path : string) (f1 : Frame Model) (m : Model) (d : gmap string pyval) :
  truthy_file file || truthy_str file_path = true ->
  audio_source os file file_path {| temp_file := None; world := w |} = (Ok path, f1) ->
  get_model (world f1) = (Ok m, w2) ->
  transcribe m path (fs w2) = Ok d ->
  (forall t, temp_file f1 = Some t -> remove_ok os t = true) ->
  fst (transcribe_audio os file file_path w) =
    match d !! "text", d !! "language" with
    | Some text, Some language =>
        Ok {[ "transcript" := text;
              "language" := language;
              "duration" := match d !! "duration" with
                            | Some seconds => seconds
                            | None => PyInt 0
                            end ]}
    | None, _ => Raise (KeyError "text")
    | Some _, None => Raise (KeyError "language")
    end.
Proof.
  intros Htruthy Hsrc Hm Hd Hrm.
  rewrite (transcribe_audio_sourced os file file_path w path f1 Htruthy Hsrc Hrm).
  unfold model_step. rewrite Hm. unfold transcribed. rewrite Hd. simpl.
  unfold response_of. destruct (d !! "text"); [|reflexivity].
  destruct (d !! "language"); [|reflexivity].
  now destruct (d !! "duration").
Qed.

Lemma response_fields_witness :
  fst (transcribe_audio (lib := Demo.timed) Demo.reliable None (Some "/data/talk.mp3") Demo.boot) =
    Ok {[ "transcript" := PyStr "hello"; "language" := PyStr "en";
          "duration" := PyFloat 5 (-1) ]}.
Proof.
  refine (response_fields (lib := Demo.timed) Demo.reliable None (Some "/data/talk.mp3")
            Demo.boot _ "/data/talk.mp3" {| temp_file := None; world := Demo.boot |}
            "base" (<[ "duration" := PyFloat 5 (-1) ]> Demo.hello) _ _ _ _ _).
  - reflexivity.
  - vm_compute. reflexivity.
  - reflexivity.
  - reflexivity.
  - intros t Ht. discriminate Ht.
Defined.

(** C8.  [get_model] is a lazy singleton.  In a process whose global is
    still [None], the first call loads the variant "base" (one load, of that
    name) and returns its handle [m]; after that, whatever requests have been
    served in between, a call returns the same [m] and leaves the state as it
    is, so that no further load is made.  Two consecutive [/health] calls are
    handed that same handle: the first makes the load, the second makes none
    and changes nothing, and both end alike on the read of its [model_name],
    with the same value in the response or with the same [AttributeError]. *)
Theorem get_model_singleton {Model : Type} {lib : Whisper Model}
        (w : World Model) (m : Model) :
  _model w = None ->
  load_model "base" = Ok m ->
  let w1 := snd (get_model w) in
  let report : result (gmap string pyval) :=
    match model_name m with
    | Some tag => Ok {[ "status" := PyStr "ok"; "model" := tag ]}
    | None => Raise (AttributeError "model_name")
    end in
  get_model w = (Ok m, w1) /\
  trace w1 = (trace w ++ [EvLoadModel "base"])%list /\
  (forall os reqs,
      let w2 := serve_all os reqs w1 in
      get_model w2 = (Ok m, w2) /\ loads (trace w2) = loads (trace w1)) /\
  health_check w = (report, w1) /\
  health_check w1 = (report, w1).
Proof.
  intros Hw Hl w1 report.
  pose proof (get_model_first w m Hw Hl) as Hfirst.
  assert (Hw1 : _model w1 = Some m) by (unfold w1; now rewrite Hfirst).
  split; [unfold w1; now rewrite Hfirst|].
  split; [unfold w1; now rewrite Hfirst|].
  split.
  - intros os reqs w2.
    destruct (serve_all_keeps_model os reqs w1 m Hw1) as [Hk Hloads].
    split; [apply get_model_loaded, Hk | exact Hloads].
  - split.
    + apply health_check_from. unfold w1. now rewrite Hfirst.
    + apply health_check_from, get_model_loaded, Hw1.
Qed.

Lemma get_model_singleton_witness :
  let w1 := snd (get_model (lib := Demo.tagged) Demo.boot) in
  health_check (lib := Demo.tagged) Demo.boot =
    (Ok {[ "status" := PyStr "ok"; "model" := PyStr "base" ]}, w1) /\
  health_check (lib := Demo.tagged) w1 =
    (Ok {[ "status" := PyStr "ok"; "model" := PyStr "base" ]}, w1).
Proof.
  refine (proj2 (proj2 (proj2
    (get_model_singleton (lib := Demo.tagged) Demo.boot "base" _ _)))).
  - reflexivity.
  - reflexivity.
Defined.

(** C9.  A request with only a [file_path] naming an existing file, in a
    process where the handle can be obtained: the transcription call is made
    on that very path, the call after the (possible) load and the last one
    of the request; no file is written and none is removed, so the files are
    what they were, the supplied one included; no temp name is drawn, and
    the [finally] block has nothing to remove. *)
Theorem local_path_used_in_place {Model : Type} {lib : Whisper Model} (os : OS)
        (path : string) (w w1 : World Model) (m : Model) :
  path <> "" ->
  is_Some (fs w !! path) ->
  get_model w = (Ok m, w1) ->
  let out := transcribe_audio os None (Some path) w in
  fst out = match transcribe m path (fs w) with
            | Ok d => response_of d
            | Raise e => Raise e
            end /\
  (exists loaded,
      (loaded = [] \/ loaded = [EvLoadModel "base"]) /\
      trace (snd out) = (trace w ++ loaded ++ [EvTranscribe path])%list) /\
  fs (snd out) = fs w /\
  drawn (snd out) = drawn w /\
  finally_block os {| temp_file := None; world := snd out |} =
    (Ok tt, {| temp_file := None; world := snd out |}).
Proof.
  intros Hne Hex Hm out.
  unfold out. rewrite (transcribe_audio_local os path w Hne Hex).
  pose proof (get_model_frame w) as [Hfs Hdr]. rewrite Hm in Hfs, Hdr. simpl in Hfs, Hdr.
  unfold model_step. rewrite Hm. unfold transcribed. simpl. rewrite Hfs.
  split; [reflexivity|]. split; [|repeat split; assumption].
  destruct (_model w) as [m0|] eqn:Hw.
  - rewrite (get_model_loaded w m0 Hw) in Hm. injection Hm as <- <-.
    exists []. split; [now left | reflexivity].
  - destruct (load_model "base") as [m0|e] eqn:Hl.
    + rewrite (get_model_first w m0 Hw Hl) in Hm. injection Hm as <- <-.
      exists [EvLoadModel "base"]. split; [now right|].
      simpl. now rewrite <- List.app_assoc.
    + rewrite (get_model_failed w e Hw Hl) in Hm. discriminate Hm.
Qed.

Lemma local_path_used_in_place_witness :
  fs (snd (transcribe_audio (lib := Demo.works) Demo.reliable None
             (Some "/data/talk.mp3") Demo.boot)) = fs Demo.boot.
Proof.
  refine (proj1 (proj2 (proj2
    (local_path_used_in_place (lib := Demo.works) Demo.reliable "/data/talk.mp3"
       Demo.boot _ "base" _ _ _)))).
  - discriminate.
  - vm_compute. eauto.
  - reflexivity.
Defined.

(** C10.  The code does not do what the claim says.  [health_check] obtains
    the handle, loading the model on the first call and keeping it in the
    global, and then reads [model.model_name] to fill the [model] field.
    For a handle without that attribute, as the handle of the openai-whisper
    package is, the read raises [AttributeError]: no response is built and
    the call is answered 500, the first time, after the load, and every
    time after. *)
Theorem health_fails_on_model_name {Model : Type} {lib : Whisper Model}
        (w w1 : World Model) (m : Model) :
  get_model w = (Ok m, w1) ->
  model_name m = None ->
  health_check w = (Raise (AttributeError "model_name"), w1) /\
  http_status (fst (health_check w)) = 500%Z /\
  _model w1 = Some m /\
  (_model w = None ->
   load_model "base" = Ok m /\ trace w1 = (trace w ++ [EvLoadModel "base"])%list) /\
  health_check w1 = (Raise (AttributeError "model_name"), w1).
Proof.
  intros Hm Hname.
  pose proof (get_model_returns w w1 m Hm) as Hw1.
  assert (Heq : health_check w = (Raise (AttributeError "model_name"), w1)).
  { rewrite (health_check_from w w1 m Hm). now rewrite Hname. }
  split; [exact Heq|]. split; [now rewrite Heq|]. split; [exact Hw1|]. split.
  - intros Hw. destruct (load_model "base") as [m0|e] eqn:Hl.
    + rewrite (get_model_first w m0 Hw Hl) in Hm. injection Hm as <- <-. now split.
    + rewrite (get_model_failed w e Hw Hl) in Hm. discriminate Hm.
  - rewrite (health_check_from w1 w1 m (get_model_loaded w1 m Hw1)).
    now rewrite Hname.
Qed.

Lemma health_fails_on_model_name_witness :
  health_check (lib := Demo.works) Demo.boot =
    (Raise (AttributeError "model_name"),
     set_model (Some "base") (log (EvLoadModel "base") Demo.boot)).
Proof.
  refine (proj1 (health_fails_on_model_name (lib := Demo.works) Demo.boot _ "base" _ _)).
  - reflexivity.
  - reflexivity.
Defined.

(** ** The path functions on examples *)
Example suffix_plain : Py.path_suffix "talk.wav" = ".wav".
Proof. reflexivity. Qed.
Example suffix_upper : Py.lower (Py.path_suffix "dir/Talk.Final.MP3") = ".mp3".
Proof. reflexivity. Qed.
Example suffix_hidden : Py.path_suffix ".mp3" = "".
Proof. reflexivity. Qed.
Example suffix_trailing_dot : Py.path_suffix "talk." = "".
Proof. reflexivity. Qed.
Example suffix_dir : Py.path_suffix "talk.wav/" = ".wav".
Proof. reflexivity. Qed.
Example suffix_none : Py.path_suffix "a.wav/README" = "".
Proof. reflexivity. Qed.

(** ** Beyond the contract: what every request does to the process *)
Section RequestFacts.
Context {Model : Type} {lib : Whisper Model} (os : OS).

(** *** The model step, by state of the global *)

Lemma model_step_loaded (path : string) (w : World Model) (m : Model) :
  _model w = Some m -> model_step path w = transcribed m path w.
Proof. intros Hm. unfold model_step. now rewrite (get_model_loaded w m Hm). Qed.

Lemma model_step_first (path : string) (w : World Model) (m : Model) :
  _model w = None -> load_model "base" = Ok m ->
  model_step path w =
    transcribed m path (set_model (Some m) (log (EvLoadModel "base") w)).
Proof. intros Hw Hl. unfold model_step. now rewrite (get_model_first w m Hw Hl). Qed.

Lemma model_step_load_failed (path : string) (w : World Model) (e : exn) :
  _model w = None -> load_model "base" = Raise e ->
  model_step path w = (Raise e, log (EvLoadModel "base") w).
Proof. intros Hw Hl. unfold model_step. now rewrite (get_model_failed w e Hw Hl). Qed.

(** *** The upload whose temp file cannot be opened *)

(** [temp_file] is assigned before [open]: when the open is refused the
    [finally] block still looks for the path and removes a file found
    there. *)
Lemma transcribe_audio_open_refused (file : UploadFile) (file_path : option string)
      (w : World Model) :
  let path := temp_path (candidate os (drawn w)) (Py.path_suffix (filename file)) in
  let w8 := set_drawn (drawn w + 8) w in
  valid_suffix (Py.path_suffix (filename file)) = true ->
  open_wb_ok os path = false ->
  transcribe_audio os (Some file) file_path w =
    (Raise (OSError path),
     if bool_decide (is_Some (fs w !! path)) && remove_ok os path
     then set_fs (delete path (fs w)) (log (EvRemove path) w8)
     else w8).
Proof.
  intros path w8 Hv Ho.
  unfold transcribe_audio, truthy_file.
  cbv [negb andb call try_finally try_block bind audio_source].
  rewrite (save_upload_open_failed os file None w Hv Ho). fold path w8.
  destruct (fs w !! path) as [b|] eqn:Hl.
  - assert (Hex : is_Some (fs w8 !! path)) by (simpl; rewrite Hl; eauto).
    rewrite bool_decide_eq_true_2 by eauto.
    destruct (remove_ok os path) eqn:Hr.
    + now rewrite (finally_removes os path w8 Hex Hr).
    + now rewrite (finally_remove_fails os path w8 Hex Hr).
  - rewrite bool_decide_eq_false_2 by (intros [x Hx]; discriminate Hx).
    now rewrite (finally_absent os path w8 Hl).
Qed.

(** *** Every request falls in one of four cases *)
Lemma transcribe_audio_cases (file : option UploadFile) (file_path : option string)
      (w : World Model) :
  (exists c d, (c = 400%Z \/ c = 404%Z) /\
     transcribe_audio os file file_path w = (Raise (HTTPException c d), w))
  \/
  (exists path, file = None /\ file_path = Some path /\ path <> "" /\
     is_Some (fs w !! path) /\
     transcribe_audio os file file_path w = model_step path w)
  \/
  (exists f, file = Some f /\
     let path := temp_path (candidate os (drawn w)) (Py.path_suffix (filename f)) in
     let out := model_step path (saved os f w) in
     valid_suffix (Py.path_suffix (filename f)) = true /\
     open_wb_ok os path = true /\
     transcribe_audio os file file_path w =
       if remove_ok os path
       then (fst out, set_fs (delete path (fs w)) (log (EvRemove path) (snd out)))
       else (Raise (OSError path), snd out))
  \/
  (exists f, file = Some f /\
     let path := temp_path (candidate os (drawn w)) (Py.path_suffix (filename f)) in
     let w8 := set_drawn (drawn w + 8) w in
     valid_suffix (Py.path_suffix (filename f)) = true /\
     open_wb_ok os path = false /\
     transcribe_audio os file file_path w =
       (Raise (OSError path),
        if bool_decide (is_Some (fs w !! path)) && remove_ok os path
        then set_fs (delete path (fs w)) (log (EvRemove path) w8)
        else w8)).
Proof.
  destruct file as [f|].
  - destruct (valid_suffix (Py.path_suffix (filename f))) eqn:Hv.
    + destruct (open_wb_ok os
        (temp_path (candidate os (drawn w)) (Py.path_suffix (filename f)))) eqn:Ho.
      * right. right. left. exists f. split; [reflexivity|].
        intros path out. repeat split; try assumption.
        apply (transcribe_audio_upload os f file_path w Hv Ho).
      * right. right. right. exists f. split; [reflexivity|].
        intros path w8. repeat split; try assumption.
        apply (transcribe_audio_open_refused f file_path w Hv Ho).
    + left. eexists 400%Z, _. split; [now left|].
      unfold transcribe_audio, truthy_file.
      cbv [negb andb call try_finally try_block bind audio_source].
      rewrite (save_upload_rejected os f _ Hv). now rewrite finally_no_temp.
  - destruct file_path as [path|].
    + destruct (String.eqb path "") eqn:Hne.
      * left. eexists 400%Z, _. split; [now left|].
        unfold transcribe_audio, truthy_file, truthy_str. now rewrite Hne.
      * apply String.eqb_neq in Hne.
        destruct (fs w !! path) as [b|] eqn:Hl.
        -- right. left. exists path. repeat split; try assumption; [eauto|].
           apply transcribe_audio_local; [assumption | rewrite Hl; eauto].
        -- left. eexists 404%Z, _. split; [now right|].
           unfold transcribe_audio, truthy_file, truthy_str.
           apply String.eqb_neq in Hne. rewrite Hne.
           cbv [negb andb call try_finally try_block bind audio_source].
           rewrite use_file_path_missing by exact Hl.
           now rewrite finally_no_temp.
    + left. eexists 400%Z, _. split; [now left|]. reflexivity.
Qed.

(** *** What the model step does to the state *)
Lemma loads_app (a b : list event) : loads (a ++ b) = (loads a + loads b)%nat.
Proof. unfold loads. now rewrite List.filter_app, List.length_app. Qed.

Lemma model_step_effect (path : string) (w : World Model) :
  let w' := snd (model_step path w) in
  (exists m, _model w = Some m /\ _model w' = Some m /\
     trace w' = (trace w ++ [EvTranscribe path])%list) \/
  (exists m, _model w = None /\ load_model "base" = Ok m /\ _model w' = Some m /\
     trace w' = (trace w ++ [EvLoadModel "base"; EvTranscribe path])%list) \/
  (exists e, _model w = None /\ load_model "base" = Raise e /\ _model w' = None /\
     trace w' = (trace w ++ [EvLoadModel "base"])%list /\
     fst (model_step path w) = Raise e).
Proof.
  intros w'. unfold w'.
  destruct (_model w) as [m|] eqn:Hw.
  - left. exists m. rewrite (model_step_loaded path w m Hw). now repeat split.
  - destruct (load_model "base") as [m|e] eqn:Hl.
    + right. left. exists m. rewrite (model_step_first path w m Hw Hl).
      repeat split. simpl. now rewrite <- List.app_assoc.
    + right. right. exists e. rewrite (model_step_load_failed path w e Hw Hl).
      now repeat split.
Qed.

(** The effect of the model step, with events [pre] before it and [post]
    after it that are not loads. *)
Lemma model_step_request_effect (path : string) (w0 w w' : World Model)
      (pre post : list event) :
  trace w = (trace w0 ++ pre)%list -> _model w = _model w0 ->
  trace w' = (trace (snd (model_step path w)) ++ post)%list ->
  _model w' = _model (snd (model_step path w)) ->
  loads pre = 0%nat -> loads post = 0%nat ->
  (forall n, ~ In (EvLoadModel n) pre) -> (forall n, ~ In (EvLoadModel n) post) ->
  request_effect w0 w'.
Proof.
  intros Ht Hm Ht' Hm' Hpre Hpost Hnpre Hnpost.
  destruct (model_step_effect path w) as
    [(m & Hw & Hw' & Htr) | [(m & Hw & Hl & Hw' & Htr) | (e & Hw & Hl & Hw' & Htr & _)]];
    rewrite Htr, Ht in Ht'; rewrite <- !List.app_assoc in Ht';
    eexists; (split; [exact Ht'|]); split.
  - intros n Hin. rewrite !in_app_iff in Hin.
    destruct Hin as [Hin|[[Hin|[]]|Hin]];
      [now apply Hnpre in Hin | discriminate Hin | now apply Hnpost in Hin].
  - left. split; [congruence|]. rewrite !loads_app, Hpre, Hpost. reflexivity.
  - intros n Hin. rewrite !in_app_iff in Hin.
    destruct Hin as [Hin|[[Hin|[Hin|[]]]|Hin]];
      [now apply Hnpre in Hin | now injection Hin | discriminate Hin
      | now apply Hnpost in Hin].
  - right. left. split; [congruence|]. split.
    + rewrite !loads_app, Hpre, Hpost. reflexivity.
    + exists m. split; [exact Hl | congruence].
  - intros n Hin. rewrite !in_app_iff in Hin.
    destruct Hin as [Hin|[[Hin|[]]|Hin]];
      [now apply Hnpre in Hin | now injection Hin | now apply Hnpost in Hin].
  - right. right. split; [congruence|]. split.
    + rewrite !loads_app, Hpre, Hpost. reflexivity.
    + exists e. split; [exact Hl | congruence].
Qed.

(** Closes the goals saying that a literal list of events holds no load. *)
Local Ltac no_load :=
  let n := fresh "n" in let H := fresh "H" in
  intros n H; simpl in H; intuition discriminate.

Lemma request_effect_refl (w : World Model) : request_effect w w.
Proof.
  exists []. split; [now rewrite List.app_nil_r|]. split; [intros n []|].
  left. now split.
Qed.

(** Events on files only, no load and the global as it was. *)
Lemma request_effect_files (w w' : World Model) (new : list event) :
  trace w' = (trace w ++ new)%list -> _model w' = _model w ->
  loads new = 0%nat -> (forall n, ~ In (EvLoadModel n) new) ->
  request_effect w w'.
Proof.
  intros Ht Hm Hl Hn. exists new. split; [exact Ht|].
  split; [intros n Hin; now apply Hn in Hin|]. left. now split.
Qed.

Lemma transcribe_audio_effect (file : option UploadFile) (file_path : option string)
      (w : World Model) :
  request_effect w (snd (transcribe_audio os file file_path w)).
Proof.
  destruct (transcribe_audio_cases file file_path w) as
    [(c & d & _ & Heq) | [(path & _ & _ & _ & _ & Heq)
     | [(f & _ & Hc) | (f & _ & Hd)]]].
  - rewrite Heq. apply request_effect_refl.
  - rewrite Heq.
    apply (model_step_request_effect path w w _ [] []);
      try reflexivity; try (now rewrite List.app_nil_r); no_load.
  - destruct Hc as (_ & _ & Heq). rewrite Heq.
    set (path := temp_path (candidate os (drawn w)) (Py.path_suffix (filename f))).
    destruct (remove_ok os path).
    + apply (model_step_request_effect path w (saved os f w) _ [EvWrite path] [EvRemove path]);
        try reflexivity; no_load.
    + apply (model_step_request_effect path w (saved os f w) _ [EvWrite path] []);
        try reflexivity; try (now rewrite List.app_nil_r); no_load.
  - destruct Hd as (_ & _ & Heq). rewrite Heq. simpl.
    set (path := temp_path (candidate os (drawn w)) (Py.path_suffix (filename f))).
    destruct (bool_decide (is_Some (fs w !! path)) && remove_ok os path).
    + apply (request_effect_files _ _ [EvRemove path]); try reflexivity. no_load.
    + apply (request_effect_files _ _ []); try reflexivity;
        [simpl; now rewrite List.app_nil_r | no_load].
Qed.

Lemma get_model_effect (w : World Model) : request_effect w (snd (get_model w)).
Proof.
  destruct (_model w) as [m|] eqn:Hw.
  - rewrite (get_model_loaded w m Hw). apply request_effect_refl.
  - destruct (load_model "base") as [m|e] eqn:Hl.
    + rewrite (get_model_first w m Hw Hl). exists [EvLoadModel "base"].
      split; [reflexivity|]. split; [intros n [Hin|[]]; now injection Hin|].
      right. left. split; [exact Hw|]. split; [reflexivity|]. now exists m.
    + rewrite (get_model_failed w e Hw Hl). exists [EvLoadModel "base"].
      split; [reflexivity|]. split; [intros n [Hin|[]]; now injection Hin|].
      right. right. split; [exact Hw|]. split; [reflexivity|]. now exists e.
Qed.

Lemma health_check_state (w : World Model) :
  snd (health_check w) = snd (get_model w).
Proof.
  unfold health_check, bind, getattr_model_name.
  destruct (get_model w) as [[m|e] w1]; [|reflexivity].
  now destruct (model_name m).
Qed.

Lemma serve_effect (req : request) (w : World Model) :
  request_effect w (snd (serve os req w)).
Proof.
  destruct req as [file file_path| |]; simpl.
  - apply transcribe_audio_effect.
  - rewrite health_check_state. apply get_model_effect.
  - apply request_effect_refl.
Qed.

(** *** What a request does to the files *)
Lemma transcribe_audio_files (file : option UploadFile) (file_path : option string)
      (w : World Model) :
  let w' := snd (transcribe_audio os file file_path w) in
  fs w' = fs w \/
  exists path, under_temp_root path /\
    (fs w' = delete path (fs w) \/
     (remove_ok os path = false /\ exists b, fs w' = <[path := b]> (fs w))).
Proof.
  intros w'. unfold w'.
  destruct (transcribe_audio_cases file file_path w) as
    [(c & d & _ & Heq) | [(path & _ & _ & _ & _ & Heq)
     | [(f & _ & Hc) | (f & _ & Hd)]]].
  - rewrite Heq. now left.
  - rewrite Heq. left. apply model_step_frame.
  - destruct Hc as (_ & _ & Heq). rewrite Heq. right.
    set (path := temp_path (candidate os (drawn w)) (Py.path_suffix (filename f))).
    exists path. split; [apply temp_path_under_root|].
    destruct (remove_ok os path) eqn:Hr; [now left|].
    right. split; [reflexivity|]. exists (file_bytes f). simpl.
    now rewrite (proj1 (model_step_frame _ _)).
  - destruct Hd as (_ & _ & Heq). rewrite Heq. simpl.
    set (path := temp_path (candidate os (drawn w)) (Py.path_suffix (filename f))).
    destruct (bool_decide (is_Some (fs w !! path)) && remove_ok os path).
    + right. exists path. split; [apply temp_path_under_root | now left].
    + now left.
Qed.

Lemma serve_files (req : request) (w : World Model) :
  let w' := snd (serve os req w) in
  fs w' = fs w \/
  exists path, under_temp_root path /\
    (fs w' = delete path (fs w) \/
     (remove_ok os path = false /\ exists b, fs w' = <[path := b]> (fs w))).
Proof.
  destruct req as [file file_path| |]; simpl.
  - apply transcribe_audio_files.
  - left. rewrite health_check_state. apply get_model_frame.
  - now left.
Qed.

End RequestFacts.

(** ** Further properties of the service *)

(** *** Files *)

Lemma serve_files_outside (os : OS) {Model : Type} {lib : Whisper Model}
      (req : request) (w : World Model) (q : string) :
  ~ under_temp_root q -> fs (snd (serve os req w)) !! q = fs w !! q.
Proof.
  intros Hq.
  destruct (serve_files os req w) as [-> | (path & Hroot & [-> | (_ & b & ->)])];
    [reflexivity | apply lookup_delete_ne | apply lookup_insert_ne];
    intros ->; contradiction.
Qed.

(** X1.  Whatever requests are served, on whatever system and with whatever
    package, a file that is not directly inside the temp root is left as it
    was: it is neither created, nor rewritten, nor removed. *)
Theorem files_outside_temp_root_untouched {Model : Type} {lib : Whisper Model}
        (os : OS) (reqs : list request) (w : World Model) (q : string) :
  ~ under_temp_root q ->
  fs (serve_all os reqs w) !! q = fs w !! q.
Proof.
  intros Hq. revert w. induction reqs as [|req reqs IH]; intros w; [reflexivity|].
  simpl. rewrite IH. now apply serve_files_outside.
Qed.

Lemma files_outside_temp_root_untouched_witness :
  fs (serve_all (lib := Demo.works) Demo.reliable
        [PostTranscribe (Some Demo.clip) None; GetHealth;
         PostTranscribe None (Some "/data/talk.mp3")] Demo.boot)
    !! "/data/talk.mp3" = fs Demo.boot !! "/data/talk.mp3".
Proof.
  apply (files_outside_temp_root_untouched (lib := Demo.works)).
  intros (base & Heq & _). vm_compute in Heq. discriminate Heq.
Defined.

(** X2.  On a system that never refuses a removal, no sequence of requests
    leaves a file behind: every file present afterwards was there before,
    with the same bytes. *)
Theorem no_file_left_behind {Model : Type} {lib : Whisper Model}
        (os : OS) (reqs : list request) (w : World Model) :
  (forall path, remove_ok os path = true) ->
  fs (serve_all os reqs w) ⊆ fs w.
Proof.
  intros Hrm. revert w. induction reqs as [|req reqs IH]; intros w; [reflexivity|].
  simpl. etrans; [apply IH|].
  destruct (serve_files os req w) as [-> | (path & _ & [-> | (Hno & _)])].
  - reflexivity.
  - apply delete_subseteq.
  - rewrite Hrm in Hno. discriminate Hno.
Qed.

Lemma no_file_left_behind_witness :
  fs (serve_all (lib := Demo.rejects) Demo.reliable
        [PostTranscribe (Some Demo.clip) None; PostTranscribe (Some Demo.notes) None]
        Demo.boot) ⊆ fs Demo.boot.
Proof.
  apply (no_file_left_behind (lib := Demo.rejects)).
  intros path. reflexivity.
Defined.

(** X3.  An accepted upload whose temp file cannot be opened: the caller
    gets the [OSError] of the open (a 500), the eight draws of the name are
    spent, the model is neither loaded nor called; and, [temp_file] being
    assigned before the open, the [finally] block removes whatever file
    already stood at that path when the system allows it. *)
Theorem open_refused_upload {Model : Type} {lib : Whisper Model} (os : OS)
        (file : UploadFile) (file_path : option string) (w : World Model) :
  let suffix := Py.path_suffix (filename file) in
  let path := temp_path (candidate os (drawn w)) suffix in
  let out := transcribe_audio os (Some file) file_path w in
  In (Py.lower suffix) valid_formats ->
  open_wb_ok os path = false ->
  fst out = Raise (OSError path) /\
  http_status (fst out) = 500%Z /\
  drawn (snd out) = (drawn w + 8)%nat /\
  _model (snd out) = _model w /\
  (trace (snd out) = trace w \/ trace (snd out) = (trace w ++ [EvRemove path])%list) /\
  (remove_ok os path = true -> fs (snd out) = delete path (fs w)) /\
  (remove_ok os path = false -> fs (snd out) = fs w).
Proof.
  intros suffix path out Hin Ho. apply valid_suffix_spec in Hin.
  unfold out. rewrite (transcribe_audio_open_refused os file file_path w Hin Ho).
  fold suffix path. simpl.
  destruct (fs w !! path) as [b|] eqn:Hl.
  - rewrite bool_decide_eq_true_2 by eauto.
    destruct (remove_ok os path); simpl; repeat split; auto; discriminate.
  - rewrite bool_decide_eq_false_2 by (intros [x Hx]; discriminate Hx). simpl.
    repeat split; auto. intros _. symmetry. now apply delete_id.
Qed.

Lemma open_refused_upload_witness :
  let out := transcribe_audio (lib := Demo.works) Faults.read_only
               (Some Demo.clip) None Faults.stale in
  fst out = Raise (OSError "/tmp/whisper_api/abcdefgh.WAV") /\
  fs (snd out) = delete "/tmp/whisper_api/abcdefgh.WAV" (fs Faults.stale).
Proof.
  pose proof (open_refused_upload (lib := Demo.works) Faults.read_only Demo.clip None
                Faults.stale) as H.
  simpl in H. split.
  - apply H; [vm_compute; right; left; reflexivity | reflexivity].
  - apply H; [vm_compute; right; left; reflexivity | reflexivity | reflexivity].
Defined.

(** *** The model handle *)

(** X4.  A failed load is not remembered: the global stays [None], so every
    later [/health] probe calls [load_model] again and fails the same way.
    After [n] probes the load has been attempted [n] more times. *)
Theorem failed_load_is_retried {Model : Type} {lib : Whisper Model} (os : OS)
        (w : World Model) (e : exn) (n : nat) :
  _model w = None ->
  load_model "base" = Raise e ->
  let w' := serve_all os (List.repeat GetHealth n) w in
  _model w' = None /\
  loads (trace w') = (loads (trace w) + n)%nat /\
  health_check w' = (Raise e, log (EvLoadModel "base") w').
Proof.
  intros Hw Hl. revert w Hw. induction n as [|n IH]; intros w Hw w'.
  - unfold w'. simpl. split; [exact Hw|]. split; [lia|].
    unfold health_check, bind. now rewrite (get_model_failed w e Hw Hl).
  - unfold w'. simpl. rewrite health_check_state, (get_model_failed w e Hw Hl). simpl.
    destruct (IH (log (EvLoadModel "base") w) Hw) as (Hk & Hloads & Hh).
    split; [exact Hk|]. split; [|exact Hh].
    rewrite Hloads. simpl. rewrite loads_log. lia.
Qed.

Lemma failed_load_is_retried_witness :
  loads (trace (serve_all (lib := Faults.offline) Demo.reliable
                  (List.repeat GetHealth 3) Demo.boot)) = 3%nat.
Proof.
  refine (proj1 (proj2 (failed_load_is_retried (lib := Faults.offline) Demo.reliable
                          Demo.boot (WhisperError "download failed") 3 _ _))).
  - reflexivity.
  - reflexivity.
Defined.

(** X5.  The only variant the service ever loads is "base": a load found in
    the trace after any sequence of requests either was there before or is a
    load of "base". *)
Theorem only_base_is_loaded {Model : Type} {lib : Whisper Model} (os : OS)
        (reqs : list request) (w : World Model) (name : string) :
  In (EvLoadModel name) (trace (serve_all os reqs w)) ->
  In (EvLoadModel name) (trace w) \/ name = "base".
Proof.
  revert w. induction reqs as [|req reqs IH]; intros w Hin; [now left|].
  simpl in Hin. apply IH in Hin as [Hin | ->]; [|now right].
  destruct (serve_effect os req w) as (new & Ht & Hbase & _).
  rewrite Ht in Hin. apply in_app_iff in Hin as [Hin|Hin]; [now left|].
  right. now apply Hbase.
Qed.

Lemma only_base_is_loaded_witness :
  In (EvLoadModel "base") (trace Demo.boot) \/ "base" = "base".
Proof.
  apply (only_base_is_loaded (lib := Demo.works) Demo.reliable
           [PostTranscribe (Some Demo.clip) None] Demo.boot "base").
  vm_compute. right. left. reflexivity.
Defined.

(** X6.  When the package can load the model, a process that starts with
    the global at [None] makes at most one load over its whole life: after
    any sequence of requests either nothing was loaded and the global is
    still [None], or exactly one load was made and the global holds the
    handle that [load_model "base"] returns. *)
Theorem one_load_per_process {Model : Type} {lib : Whisper Model} (os : OS)
        (reqs : list request) (w : World Model) (m : Model) :
  _model w = None ->
  load_model "base" = Ok m ->
  let w' := serve_all os reqs w in
  (_model w' = None /\ loads (trace w') = loads (trace w)) \/
  (_model w' = Some m /\ loads (trace w') = (loads (trace w) + 1)%nat).
Proof.
  intros Hw Hl. revert w Hw. induction reqs as [|req reqs IH]; intros w Hw w'.
  - left. now split.
  - unfold w'. simpl.
    destruct (serve_effect os req w) as
      (new & Ht & _ & [(Hm & Hn) | [(_ & Hn & m' & Hl' & Hm) | (_ & _ & e & Hl' & _)]]).
    + rewrite Hw in Hm.
      destruct (IH _ Hm) as [(Hk & Hloads) | (Hk & Hloads)];
        [left | right]; (split; [exact Hk|]);
        rewrite Hloads, Ht, loads_app, Hn; lia.
    + rewrite Hl in Hl'. injection Hl' as <-.
      destruct (serve_all_keeps_model os reqs _ m Hm) as [Hk Hloads].
      right. split; [exact Hk|]. rewrite Hloads, Ht, loads_app, Hn. reflexivity.
    + rewrite Hl in Hl'. discriminate Hl'.
Qed.

Lemma one_load_per_process_witness :
  let w' := serve_all (lib := Demo.works) Demo.reliable
              [GetRoot; PostTranscribe (Some Demo.clip) None; GetHealth;
               PostTranscribe None (Some "/data/talk.mp3")] Demo.boot in
  (_model w' = None /\ loads (trace w') = loads (trace Demo.boot)) \/
  (_model w' = Some "base" /\ loads (trace w') = (loads (trace Demo.boot) + 1)%nat).
Proof.
  apply (one_load_per_process (lib := Demo.works)); reflexivity.
Defined.

(** *** The handler *)

(** X7.  An accepted upload, in a process where the handle can be obtained
    and on a system that allows the open and the removal: the model is
    called on the temp path, never on the client's file name, and finds
    there the bytes of the upload; the write comes before the call and the
    removal after it, and nothing else is done. *)
Theorem upload_transcribed_from_temp_file {Model : Type} {lib : Whisper Model}
        (os : OS) (file : UploadFile) (file_path : option string)
        (w w1 : World Model) (m : Model) :
  let suffix := Py.path_suffix (filename file) in
  let path := temp_path (candidate os (drawn w)) suffix in
  let out := transcribe_audio os (Some file) file_path w in
  In (Py.lower suffix) valid_formats ->
  open_wb_ok os path = true ->
  remove_ok os path = true ->
  get_model (saved os file w) = (Ok m, w1) ->
  fst out = match transcribe m path (<[path := file_bytes file]> (fs w)) with
            | Ok d => response_of d
            | Raise e => Raise e
            end /\
  exists loaded,
    (loaded = [] \/ loaded = [EvLoadModel "base"]) /\
    trace (snd out) =
      (trace w ++ [EvWrite path] ++ loaded ++ [EvTranscribe path; EvRemove path])%list.
Proof.
  intros suffix path out Hin Ho Hr Hm. apply valid_suffix_spec in Hin.
  unfold out. rewrite (transcribe_audio_upload os file file_path w Hin Ho).
  fold suffix path. rewrite Hr.
  pose proof (get_model_frame (saved os file w)) as [Hfs _].
  rewrite Hm in Hfs. simpl in Hfs.
  unfold model_step. rewrite Hm. unfold transcribed. simpl. rewrite Hfs.
  split; [reflexivity|].
  destruct (_model (saved os file w)) as [m0|] eqn:Hw.
  - rewrite (get_model_loaded _ m0 Hw) in Hm. injection Hm as <- <-.
    exists []. split; [now left|]. simpl. fold suffix path.
    now rewrite <- !List.app_assoc.
  - destruct (load_model "base") as [m0|e] eqn:Hl.
    + rewrite (get_model_first _ m0 Hw Hl) in Hm. injection Hm as <- <-.
      exists [EvLoadModel "base"]. split; [now right|]. simpl. fold suffix path.
      now rewrite <- !List.app_assoc.
    + rewrite (get_model_failed _ e Hw Hl) in Hm. discriminate Hm.
Qed.

Lemma upload_transcribed_from_temp_file_witness :
  fst (transcribe_audio (lib := Demo.works) Demo.reliable (Some Demo.clip) None
         Demo.boot) =
    Ok {[ "transcript" := PyStr "hello"; "language" := PyStr "en";
          "duration" := PyInt 0 ]}.
Proof.
  refine (proj1 (upload_transcribed_from_temp_file (lib := Demo.works) Demo.reliable
              Demo.clip None Demo.boot
              (set_model (Some "base")
                 (log (EvLoadModel "base") (saved Demo.reliable Demo.clip Demo.boot)))
              "base" _ _ _ _)).
  - vm_compute. right. left. reflexivity.
  - reflexivity.
  - reflexivity.
  - reflexivity.
Defined.

Lemma model_step_response {Model : Type} {lib : Whisper Model} (path : string)
      (w : World Model) (r : gmap string pyval) :
  fst (model_step path w) = Ok r ->
  exists (d : gmap string pyval) text language,
    d !! "text" = Some text /\ d !! "language" = Some language /\
    r = {[ "transcript" := text; "language" := language;
           "duration" := default (PyInt 0) (d !! "duration") ]}.
Proof.
  unfold model_step, transcribed, response_of.
  destruct (get_model w) as [[m|e] w1]; [|discriminate].
  simpl. destruct (transcribe m path (fs w1)) as [d|e]; [|discriminate].
  destruct (d !! "text") as [text|] eqn:Ht; [|discriminate].
  destruct (d !! "language") as [language|] eqn:Hl; [|discriminate].
  intros [= <-]. now exists d, text, language.
Qed.

(** X8.  A response of [/transcribe] has the three fields [transcript],
    [language] and [duration] and no other: whatever further keys the
    mapping returned by the model holds are not passed on. *)
Theorem response_has_three_fields {Model : Type} {lib : Whisper Model} (os : OS)
        (file : option UploadFile) (file_path : option string) (w : World Model)
        (r : gmap string pyval) :
  fst (transcribe_audio os file file_path w) = Ok r ->
  (exists text language seconds,
      r = {[ "transcript" := text; "language" := language; "duration" := seconds ]}) /\
  dom r = ({[ "transcript"; "language"; "duration" ]} : gset string).
Proof.
  intros Hr.
  assert (Hstep : exists path w0, fst (model_step path w0) = Ok r).
  { destruct (transcribe_audio_cases os file file_path w) as
      [(c & d & _ & Heq) | [(path & _ & _ & _ & _ & Heq)
       | [(f & _ & Hc) | (f & _ & Hd)]]].
    - rewrite Heq in Hr. discriminate Hr.
    - rewrite Heq in Hr. eauto.
    - destruct Hc as (_ & _ & Heq). rewrite Heq in Hr.
      destruct (remove_ok os _); [simpl in Hr; eauto | discriminate Hr].
    - destruct Hd as (_ & _ & Heq). rewrite Heq in Hr. discriminate Hr. }
  destruct Hstep as (path & w0 & Hstep).
  apply model_step_response in Hstep as (d & text & language & _ & _ & ->).
  split; [eauto|].
  rewrite !dom_insert_L, dom_singleton_L. set_solver.
Qed.

Lemma response_has_three_fields_witness :
  dom (<[ "transcript" := PyStr "hello" ]>
         (<[ "language" := PyStr "en" ]> {[ "duration" := PyFloat 5 (-1) ]})
       : gmap string pyval)
  = ({[ "transcript"; "language"; "duration" ]} : gset string).
Proof.
  refine (proj2 (response_has_three_fields (lib := Demo.timed) Demo.reliable None
                   (Some "/data/talk.mp3") Demo.boot _ _)).
  vm_compute. reflexivity.
Defined.

(** X9.  Past the first check, the [else] branch always has a path to test:
    choosing the audio never raises the [TypeError] of [os.path.exists(None)],
    whatever the files and the system. *)
Theorem else_branch_has_a_path {Model : Type} (os : OS)
        (file : option UploadFile) (file_path : option string) (f : Frame Model) :
  truthy_file file || truthy_str file_path = true ->
  fst (audio_source os file file_path f) <> Raise TypeError.
Proof.
  intros Htruthy. destruct f as [t w]. destruct file as [file|]; simpl.
  - destruct (valid_suffix (Py.path_suffix (filename file))) eqn:Hv.
    + destruct (open_wb_ok os
        (temp_path (candidate os (drawn w)) (Py.path_suffix (filename file)))) eqn:Ho.
      * now rewrite (save_upload_saved os file t w Hv Ho).
      * now rewrite (save_upload_open_failed os file t w Hv Ho).
    + now rewrite (save_upload_rejected os file _ Hv).
  - destruct file_path as [path|]; [|discriminate Htruthy].
    destruct (fs w !! path) as [b|] eqn:Hl.
    + rewrite use_file_path_found by (simpl; rewrite Hl; eauto). discriminate.
    + rewrite use_file_path_missing by exact Hl. discriminate.
Qed.

Lemma else_branch_has_a_path_witness :
  fst (audio_source Demo.reliable None (Some "/data/lost.wav")
         {| temp_file := None; world := Demo.boot |}) <> Raise TypeError.
Proof.
  apply else_branch_has_a_path. reflexivity.
Defined.

(** *** File names *)
Section NameFacts.

Lemma lacks_slash (s : string) : lacks "/" s = no_slash s.
Proof. reflexivity. Qed.

Lemma lacks_app (c : ascii) (a b : string) :
  lacks c (a +:+ b) = lacks c a && lacks c b.
Proof.
  unfold lacks. induction a as [|x a IH]; [reflexivity|].
  change (String x a +:+ b) with (String x (a +:+ b)). simpl.
  rewrite IH. apply andb_assoc.
Qed.

Lemma length_app (a b : string) :
  String.length (a +:+ b) = (String.length a + String.length b)%nat.
Proof.
  induction a as [|x a IH]; [reflexivity|].
  change (String x a +:+ b) with (String x (a +:+ b)). simpl. now rewrite IH.
Qed.

Lemma drop_app (a b : string) : Py.drop (String.length a) (a +:+ b) = b.
Proof.
  induction a as [|x a IH]; [now destruct b|].
  change (String x a +:+ b) with (String x (a +:+ b)). exact IH.
Qed.

(** [split] *)
Lemma split_nonempty (c : ascii) (s : string) : Py.split c s <> [].
Proof.
  destruct s as [|a s]; simpl; [discriminate|].
  destruct (Ascii.eqb a c); [discriminate|].
  destruct (Py.split c s); discriminate.
Qed.

Lemma split_lacks (c : ascii) (s : string) :
  lacks c s = true -> Py.split c s = [s].
Proof.
  unfold lacks. induction s as [|a s IH]; simpl; [reflexivity|].
  intros H. apply andb_prop in H as [Ha Hs]. apply negb_true_iff in Ha.
  rewrite Ha, (IH Hs). reflexivity.
Qed.

Lemma split_app_sep (c : ascii) (a b : string) :
  Py.split c (a +:+ String c b) = (Py.split c a ++ Py.split c b)%list.
Proof.
  induction a as [|x a IH].
  - change ("" +:+ String c b) with (String c b). simpl.
    now rewrite Ascii.eqb_refl.
  - change (String x a +:+ String c b) with (String x (a +:+ String c b)).
    simpl. rewrite IH. destruct (Ascii.eqb x c); [reflexivity|].
    pose proof (split_nonempty c a) as Hne.
    destruct (Py.split c a) as [|p ps]; [contradiction | reflexivity].
Qed.

(** The pieces of a string hold only characters of the string. *)
Lemma split_pieces_lack (c x : ascii) (s p : string) :
  lacks x s = true -> In p (Py.split c s) -> lacks x p = true.
Proof.
  unfold lacks. revert p. induction s as [|a s IH]; simpl; intros p Hs Hp.
  - destruct Hp as [<-|[]]. reflexivity.
  - apply andb_prop in Hs as [Ha Hs].
    destruct (Ascii.eqb a c).
    + destruct Hp as [<-|Hp]; [reflexivity | auto].
    + destruct (Py.split c s) as [|q qs] eqn:Hsplit.
      * destruct Hp as [<-|[]]. simpl. now rewrite Ha.
      * destruct Hp as [<-|Hp].
        -- simpl. rewrite Ha. simpl. apply IH; [exact Hs | now left].
        -- apply IH; [exact Hs | now right].
Qed.

Lemma path_name_lacks (x : ascii) (path : string) :
  lacks x path = true -> lacks x (Py.path_name path) = true.
Proof.
  intros H. unfold Py.path_name, Py.path_parts.
  destruct (last_in_or_default (List.filter Py.is_part (Py.split "/" path)) "")
    as [-> | Hin]; [reflexivity|].
  apply filter_In in Hin as [Hin _].
  exact (split_pieces_lack _ _ _ _ H Hin).
Qed.

(** The directories in front of a name do not count. *)
Lemma path_name_in_dir (dir base : string) :
  lacks "/" base = true -> Py.is_part base = true ->
  Py.path_name (dir +:+ "/" +:+ base) = base.
Proof.
  intros Hs Hp. unfold Py.path_name, Py.path_parts.
  change ("/" +:+ base) with (String "/" base).
  rewrite split_app_sep, (split_lacks _ _ Hs), List.filter_app. simpl.
  rewrite Hp. apply List.last_last.
Qed.

(** [rfind] *)
Lemma rfind_lacks (c : ascii) (s : string) :
  lacks c s = true -> Py.rfind c s = None.
Proof.
  unfold lacks. induction s as [|a s IH]; simpl; [reflexivity|].
  intros H. apply andb_prop in H as [Ha Hs]. apply negb_true_iff in Ha.
  now rewrite (IH Hs), Ha.
Qed.

Lemma rfind_None (c : ascii) (s : string) :
  Py.rfind c s = None -> lacks c s = true.
Proof.
  unfold lacks. induction s as [|a s IH]; simpl; [reflexivity|].
  destruct (Py.rfind c s); [discriminate|].
  destruct (Ascii.eqb a c); [discriminate|]. intros _. now rewrite IH.
Qed.

(** From the last occurrence on, the string is that character and a rest
    without it. *)
Lemma rfind_drop (c : ascii) (s : string) (i : nat) :
  Py.rfind c s = Some i ->
  exists rest, Py.drop i s = String c rest /\ lacks c rest = true /\
               String.length s = (i + 1 + String.length rest)%nat.
Proof.
  revert i. induction s as [|a s IH]; simpl; intros i; [discriminate|].
  destruct (Py.rfind c s) as [j|] eqn:Hr.
  - intros [= <-]. destruct (IH j eq_refl) as (rest & Hd & Hl & Hlen).
    exists rest. simpl. split; [exact Hd|]. split; [exact Hl | lia].
  - destruct (Ascii.eqb a c) eqn:Hac; [|discriminate].
    intros [= <-]. apply Ascii.eqb_eq in Hac as ->.
    exists s. simpl. split; [reflexivity|]. split; [now apply rfind_None | lia].
Qed.

Lemma rfind_app_last (c : ascii) (stem rest : string) :
  lacks c rest = true ->
  Py.rfind c (stem +:+ String c rest) = Some (String.length stem).
Proof.
  intros Hl. induction stem as [|x stem IH].
  - change ("" +:+ String c rest) with (String c rest). simpl.
    now rewrite (rfind_lacks _ _ Hl), Ascii.eqb_refl.
  - change (String x stem +:+ String c rest) with (String x (stem +:+ String c rest)).
    simpl. now rewrite IH.
Qed.

(** A non-empty suffix is a dot followed by a non-empty rest without dots. *)
Lemma name_suffix_shape (name : string) :
  Py.name_suffix name <> "" ->
  exists rest, Py.name_suffix name = String "." rest /\
               lacks "." rest = true /\ rest <> "".
Proof.
  unfold Py.name_suffix. destruct (Py.rfind "." name) as [i|] eqn:Hr; [|congruence].
  destruct ((0 <? i)%nat && (S i <? String.length name)%nat) eqn:Hc; [|congruence].
  intros _. apply andb_prop in Hc as [_ Hlt]. apply Nat.ltb_lt in Hlt.
  destruct (rfind_drop _ _ _ Hr) as (rest & Hd & Hl & Hlen).
  exists rest. split; [exact Hd|]. split; [exact Hl|].
  intros ->. simpl in Hlen. lia.
Qed.

Lemma name_suffix_app (stem rest : string) :
  stem <> "" -> lacks "." rest = true -> rest <> "" ->
  Py.name_suffix (stem +:+ String "." rest) = String "." rest.
Proof.
  intros Hstem Hl Hrest. unfold Py.name_suffix.
  rewrite (rfind_app_last _ _ _ Hl), length_app.
  assert (H0 : (0 <? String.length stem)%nat = true).
  { apply Nat.ltb_lt. destruct stem; [congruence | simpl; lia]. }
  assert (H1 : (S (String.length stem)
                <? String.length stem + String.length (String "." rest))%nat = true).
  { apply Nat.ltb_lt. destruct rest; [congruence | simpl; lia]. }
  rewrite H0, H1. apply drop_app.
Qed.

Lemma pick_not_dot (i : nat) : Ascii.eqb (pick i) "." = false.
Proof.
  unfold pick.
  assert (Hall : forallb (fun c => negb (Ascii.eqb c "."))
                   (list_ascii_of_string characters) = true) by reflexivity.
  rewrite forallb_forall in Hall.
  apply negb_true_iff, Hall, nth_In.
  apply Nat.mod_upper_bound. discriminate.
Qed.

Lemma candidate_lacks_dot (os : OS) (k : nat) : lacks "." (candidate os k) = true.
Proof.
  unfold candidate, lacks. rewrite list_ascii_of_string_of_list_ascii.
  apply forallb_forall. intros c Hc.
  apply in_map_iff in Hc as (i & <- & _).
  now rewrite pick_not_dot.
Qed.

End NameFacts.

(** The handler on an upload whose suffix fails the test. *)
Lemma transcribe_audio_rejected {Model : Type} {lib : Whisper Model} (os : OS)
      (file : UploadFile) (file_path : option string) (w : World Model) :
  valid_suffix (Py.path_suffix (filename file)) = false ->
  transcribe_audio os (Some file) file_path w =
    (Raise (HTTPException 400
              "Unsupported file format. Supported formats: .mp3, .wav, .m4a, .webm"), w).
Proof.
  intros Hv. unfold transcribe_audio, truthy_file.
  cbv [negb andb call try_finally try_block bind audio_source].
  rewrite (save_upload_rejected os file _ Hv). now rewrite finally_no_temp.
Qed.

(** X10.  The temp file carries the suffix of the upload, spelled as the
    client spelled it: reading the suffix back from the temp path gives the
    suffix of the client's file name, whenever that one is not empty (as it
    is for every accepted upload). *)
Theorem temp_file_keeps_suffix (os : OS) (k : nat) (fname : string) :
  Py.path_suffix fname <> "" ->
  Py.path_suffix (temp_path (candidate os k) (Py.path_suffix fname)) =
    Py.path_suffix fname.
Proof.
  intros Hne. unfold Py.path_suffix at 1. unfold temp_path.
  assert (Hbase : lacks "/" (candidate os k +:+ Py.path_suffix fname) = true).
  { rewrite lacks_slash, no_slash_app, candidate_no_slash, path_suffix_no_slash.
    reflexivity. }
  assert (Hpart : Py.is_part (candidate os k +:+ Py.path_suffix fname) = true).
  { unfold Py.is_part. apply andb_true_intro. split; apply negb_true_iff, String.eqb_neq;
      intros H; apply (f_equal String.length) in H;
      rewrite length_app, candidate_length in H; simpl in H; lia. }
  rewrite (path_name_in_dir temp_dir _ Hbase Hpart).
  unfold Py.path_suffix in Hne |- *.
  destruct (name_suffix_shape _ Hne) as (rest & -> & Hl & Hrest).
  apply name_suffix_app; [|exact Hl | exact Hrest].
  intros H. apply (f_equal String.length) in H.
  rewrite candidate_length in H. discriminate H.
Qed.

Lemma temp_file_keeps_suffix_witness :
  Py.path_suffix (temp_path (candidate Demo.reliable 0) (Py.path_suffix "clip.WAV")) =
    Py.path_suffix "clip.WAV".
Proof.
  apply temp_file_keeps_suffix. vm_compute. discriminate.
Defined.

(** X11.  An upload whose file name holds no dot at all has no suffix and is
    answered 400, the state left as it was. *)
Theorem dotless_filename_rejected {Model : Type} {lib : Whisper Model} (os : OS)
        (file : UploadFile) (file_path : option string) (w : World Model) :
  lacks "." (filename file) = true ->
  Py.path_suffix (filename file) = "" /\
  transcribe_audio os (Some file) file_path w =
    (Raise (HTTPException 400
              "Unsupported file format. Supported formats: .mp3, .wav, .m4a, .webm"), w).
Proof.
  intros Hl.
  assert (Hs : Py.path_suffix (filename file) = "").
  { unfold Py.path_suffix, Py.name_suffix.
    now rewrite (rfind_lacks _ _ (path_name_lacks _ _ Hl)). }
  split; [exact Hs|].
  apply transcribe_audio_rejected. now rewrite Hs.
Qed.

Lemma dotless_filename_rejected_witness :
  transcribe_audio (lib := Demo.works) Demo.reliable
    (Some {| filename := "recording"; file_bytes := [] |}) None Demo.boot =
    (Raise (HTTPException 400
              "Unsupported file format. Supported formats: .mp3, .wav, .m4a, .webm"),
     Demo.boot).
Proof.
  refine (proj2 (dotless_filename_rejected (lib := Demo.works) Demo.reliable
                   {| filename := "recording"; file_bytes := [] |} None Demo.boot _)).
  reflexivity.
Defined.

(** X12.  An upload named by an extension alone, such as [.mp3] or [.WAV], is
    rejected: [pathlib] reads a leading dot as part of the name, not as the
    start of a suffix. *)
Theorem bare_extension_rejected {Model : Type} {lib : Whisper Model} (os : OS)
        (file : UploadFile) (file_path : option string) (w : World Model)
        (ext : string) :
  filename file = String "." ext ->
  lacks "." ext = true ->
  lacks "/" ext = true ->
  Py.path_suffix (filename file) = "" /\
  transcribe_audio os (Some file) file_path w =
    (Raise (HTTPException 400
              "Unsupported file format. Supported formats: .mp3, .wav, .m4a, .webm"), w).
Proof.
  intros Hname Hdot Hslash.
  assert (Hs : Py.path_suffix (filename file) = "").
  { rewrite Hname. unfold Py.path_suffix, Py.path_name, Py.path_parts.
    rewrite (split_lacks "/" (String "." ext)) by (unfold lacks; simpl; exact Hslash).
    simpl. destruct (Py.is_part (String "." ext)); [|reflexivity].
    simpl. unfold Py.name_suffix. simpl.
    now rewrite (rfind_lacks _ _ Hdot). }
  split; [exact Hs|].
  apply transcribe_audio_rejected. now rewrite Hs.
Qed.

Lemma bare_extension_rejected_witness :
  transcribe_audio (lib := Demo.works) Demo.reliable
    (Some {| filename := ".mp3"; file_bytes := [] |}) None Demo.boot =
    (Raise (HTTPException 400
              "Unsupported file format. Supported formats: .mp3, .wav, .m4a, .webm"),
     Demo.boot).
Proof.
  refine (proj2 (bare_extension_rejected (lib := Demo.works) Demo.reliable
                   {| filename := ".mp3"; file_bytes := [] |} None Demo.boot "mp3"
                   _ _ _)); reflexivity.
Defined.

(** *** Requests one after the other *)

Lemma model_step_success {Model : Type} {lib : Whisper Model} (path : string)
      (w : World Model) (r : gmap string pyval) :
  fst (model_step path w) = Ok r ->
  exists m, _model (snd (model_step path w)) = Some m.
Proof.
  intros Hr.
  destruct (model_step_effect path w) as
    [(m & _ & Hm & _) | [(m & _ & _ & Hm & _) | (e & _ & _ & _ & _ & He)]];
    [eauto | eauto | rewrite He in Hr; discriminate Hr].
Qed.

(** X13.  Every answered transcription leaves the model loaded: after it
    the global holds a handle, [get_model] returns that handle without a
    load, and a [/health] call, whatever it answers, leaves the state of the
    process as it is. *)
Theorem answered_request_leaves_model_loaded {Model : Type} {lib : Whisper Model}
        (os : OS) (file : option UploadFile) (file_path : option string)
        (w : World Model) (r : gmap string pyval) :
  fst (transcribe_audio os file file_path w) = Ok r ->
  let w' := snd (transcribe_audio os file file_path w) in
  exists m, _model w' = Some m /\
    get_model w' = (Ok m, w') /\
    snd (health_check w') = w'.
Proof.
  intros Hr w'.
  assert (Hm : exists m, _model w' = Some m).
  { unfold w'.
    destruct (transcribe_audio_cases os file file_path w) as
      [(c & d & _ & Heq) | [(path & _ & _ & _ & _ & Heq)
       | [(f & _ & Hc) | (f & _ & Hd)]]].
    - rewrite Heq in Hr. discriminate Hr.
    - rewrite Heq in Hr |- *. now apply model_step_success in Hr.
    - destruct Hc as (_ & _ & Heq). rewrite Heq in Hr |- *.
      destruct (remove_ok os _); [|discriminate Hr].
      simpl in Hr |- *. now apply model_step_success in Hr.
    - destruct Hd as (_ & _ & Heq). rewrite Heq in Hr. discriminate Hr. }
  destruct Hm as (m & Hm). exists m. split; [exact Hm|].
  split; [apply get_model_loaded, Hm|].
  now rewrite health_check_state, (get_model_loaded w' m Hm).
Qed.

Lemma answered_request_leaves_model_loaded_witness :
  let w' := snd (transcribe_audio (lib := Demo.works) Demo.reliable None
                   (Some "/data/talk.mp3") Demo.boot) in
  exists m, _model w' = Some m /\
    get_model (lib := Demo.works) w' = (Ok m, w') /\
    snd (health_check (lib := Demo.works) w') = w'.
Proof.
  refine (answered_request_leaves_model_loaded (lib := Demo.works) Demo.reliable None
            (Some "/data/talk.mp3") Demo.boot _ _).
  vm_compute. reflexivity.
Defined.

(** X14.  When the system refuses to remove the temp file, the caller never
    gets the transcript: the [OSError] raised in the [finally] block takes
    the place of whatever the model step gave, be it a response or an
    error, and the temp file stays on disk with the payload. *)
Theorem refused_removal_loses_the_response {Model : Type} {lib : Whisper Model}
        (os : OS) (file : UploadFile) (file_path : option string) (w : World Model) :
  let suffix := Py.path_suffix (filename file) in
  let path := temp_path (candidate os (drawn w)) suffix in
  let out := transcribe_audio os (Some file) file_path w in
  In (Py.lower suffix) valid_formats ->
  open_wb_ok os path = true ->
  remove_ok os path = false ->
  fst out = Raise (OSError path) /\
  http_status (fst out) = 500%Z /\
  fs (snd out) !! path = Some (file_bytes file) /\
  snd out = snd (model_step path (saved os file w)).
Proof.
  intros suffix path out Hin Ho Hr. apply valid_suffix_spec in Hin.
  unfold out. rewrite (transcribe_audio_upload os file file_path w Hin Ho).
  fold suffix path. rewrite Hr. simpl.
  split; [reflexivity|]. split; [reflexivity|]. split; [|reflexivity].
  rewrite (proj1 (model_step_frame _ _)). apply lookup_insert_eq.
Qed.

Lemma refused_removal_loses_the_response_witness :
  fst (transcribe_audio (lib := Demo.works) Demo.sticky (Some Demo.clip) None Demo.boot)
    = Raise (OSError "/tmp/whisper_api/abcdefgh.WAV").
Proof.
  refine (proj1 (refused_removal_loses_the_response (lib := Demo.works) Demo.sticky
                   Demo.clip None Demo.boot _ _ _)).
  - vm_compute. right. left. reflexivity.
  - reflexivity.
  - reflexivity.
Defined.

(** C5, as the code has it.  The handler turns a request away for its form,
    with 400 "No audio file provided" and nothing done, exactly when it has
    neither an upload nor a non-empty path.  It never checks that only one
    of the two is given: with an upload present the path is not looked at,
    and a request that has both is processed from the upload; the model is
    called on the temp file holding the uploaded bytes and its outcome is
    the answer, even when the path names no file. *)
Theorem upload_takes_precedence {Model : Type} {lib : Whisper Model} (os : OS) :
  (forall file file_path w,
      transcribe_audio os file file_path w =
        (Raise (HTTPException 400 "No audio file provided"), w)
      <-> truthy_file file = false /\ truthy_str file_path = false) /\
  (forall file file_path w,
      transcribe_audio os (Some file) file_path w = transcribe_audio os (Some file) None w) /\
  (forall file given w w1 m,
      let suffix := Py.path_suffix (filename file) in
      let path := temp_path (candidate os (drawn w)) suffix in
      In (Py.lower suffix) valid_formats ->
      open_wb_ok os path = true ->
      remove_ok os path = true ->
      get_model (saved os file w) = (Ok m, w1) ->
      fst (transcribe_audio os (Some file) (Some given) w) =
        match transcribe m path (<[path := file_bytes file]> (fs w)) with
        | Ok d => response_of d
        | Raise e => Raise e
        end).
Proof.
  split; [|split].
  - intros file file_path w. split.
    + intros Hout. destruct file as [f|].
      * exfalso.
        destruct (valid_suffix (Py.path_suffix (filename f))) eqn:Hv.
        -- assert (Hd : drawn (snd (transcribe_audio os (Some f) file_path w))
                          = (drawn w + 8)%nat).
           { destruct (open_wb_ok os
               (temp_path (candidate os (drawn w)) (Py.path_suffix (filename f)))) eqn:Ho.
             - rewrite (transcribe_audio_upload os f file_path w Hv Ho).
               destruct (remove_ok os _); simpl;
                 now rewrite (proj2 (model_step_frame _ _)).
             - rewrite (transcribe_audio_open_refused os f file_path w Hv Ho). simpl.
               now destruct (bool_decide _ && remove_ok os _). }
           rewrite Hout in Hd. simpl in Hd. lia.
        -- rewrite (transcribe_audio_rejected os f file_path w Hv) in Hout.
           discriminate Hout.
      * split; [reflexivity|].
        destruct file_path as [path|]; [|reflexivity].
        simpl. destruct (String.eqb path "") eqn:Hne; [reflexivity|]. exfalso.
        apply String.eqb_neq in Hne.
        destruct (fs w !! path) as [b|] eqn:Hl.
        -- rewrite (transcribe_audio_local os path w Hne) in Hout
             by (rewrite Hl; eauto).
           assert (Ht : trace (snd (model_step path w)) = trace w)
             by now rewrite Hout.
           destruct (model_step_effect path w) as
             [(m & _ & _ & Htr) | [(m & _ & _ & _ & Htr) | (e & _ & _ & _ & Htr & _)]];
             rewrite Htr in Ht; apply (f_equal (@List.length event)) in Ht;
             rewrite List.length_app in Ht; simpl in Ht; lia.
        -- pose proof (transcribe_audio_cases os None (Some path) w) as Hc.
           destruct Hc as [(c & d & _ & Heq) | [(p & _ & Hp & _ & Hex & _)
             | [(f & Hf & _) | (f & Hf & _)]]]; try discriminate Hf.
           ++ unfold transcribe_audio, truthy_file, truthy_str in Hout.
              apply String.eqb_neq in Hne. rewrite Hne in Hout.
              cbv [negb andb call try_finally try_block bind audio_source] in Hout.
              rewrite use_file_path_missing in Hout by exact Hl.
              rewrite finally_no_temp in Hout. discriminate Hout.
           ++ injection Hp as <-. rewrite Hl in Hex. destruct Hex as [x Hx].
              discriminate Hx.
    + intros [Hf Hp]. destruct file as [f|]; [discriminate Hf|].
      unfold transcribe_audio. simpl. now rewrite Hp.
  - reflexivity.
  - intros file given w w1 m suffix path Hin Ho Hr Hm.
    apply valid_suffix_spec in Hin.
    rewrite (transcribe_audio_upload os file (Some given) w Hin Ho).
    fold suffix path. rewrite Hr.
    pose proof (get_model_frame (saved os file w)) as [Hfs _].
    rewrite Hm in Hfs. simpl in Hfs.
    unfold model_step. rewrite Hm. unfold transcribed. simpl. now rewrite Hfs.
Qed.

Lemma upload_takes_precedence_witness :
  fst (transcribe_audio (lib := Demo.works) Demo.reliable (Some Demo.clip)
         (Some "/data/lost.wav") Demo.boot) =
    Ok {[ "transcript" := PyStr "hello"; "language" := PyStr "en";
          "duration" := PyInt 0 ]}.
Proof.
  refine (proj2 (proj2 (upload_takes_precedence (lib := Demo.works) Demo.reliable))
            Demo.clip "/data/lost.wav" Demo.boot
            (set_model (Some "base")
               (log (EvLoadModel "base") (saved Demo.reliable Demo.clip Demo.boot)))
            "base" _ _ _ _).
  - vm_compute. right. left. reflexivity.
  - reflexivity.
  - reflexivity.
  - reflexivity.
Defined.
